(** * Indicator engine and signal classifier of the trading analyzer

    A shallow embedding of [trading_logic.py] (class [TradingAnalyzer]) and
    of the pandas operations it calls, followed by the properties of the
    indicator recurrences and of the BUY / SELL / HOLD decision rule.

    Numbers.  The program computes on IEEE double precision values.  The
    embedding keeps the three kinds of value that the control flow of the
    program distinguishes: NaN (the pandas marker of a missing entry), the
    two infinities (produced by a division by zero) and finite values.
    Finite values are exact rationals: rounding is not modelled, zero has
    no sign, and no operation on finite values overflows.  Equalities
    between computed values are therefore equalities up to rounding, and
    the statements that tell a null value from a number are made for
    values of moderate size, far from the largest double.

    Exceptions.  Code under [try] is written in an error monad; the
    [except Exception] clause is [try_except].

    pandas.  [diff], [where], [rolling(w).mean()] and the arithmetic on
    Series follow the documented behaviour of the library on a float64
    Series; [ewm(span, adjust=False).mean()] follows the loop of its
    implementation, with its weights and its treatment of NaN.

    Around the analyzer.  [format_signal_message], the retry loop of
    [DataFetcher.obter_dados_btc] in [data_fetcher.py] and the block of
    [main] in [app.py] that records a signal and notifies it are embedded
    too.  What they take from outside is a parameter: the text of a
    formatted float, the reading of the clock, the answers of the network;
    what they do to the outside is a log of requests and waits.  *)

From Stdlib Require Import QArith Qcanon Qcabs ZArith List Bool String Lqa.
From stdpp Require Import base option numbers list strings gmap.

Local Open Scope Qc_scope.

(** ** Double precision values, rounding left out *)

Inductive f64 : Type :=
  | NaN : f64
  | Inf (neg : bool) : f64
  | Fin (q : Qc) : f64.

Module F.

Definition of_Z (n : Z) : f64 := Fin (Qc_of_Z n).

Definition isnan (x : f64) : bool :=
  match x with NaN => true | _ => false end.

Definition Qc_ltb (a b : Qc) : bool :=
  match a ?= b with Lt => true | _ => false end.

Definition Qc_eqb (a b : Qc) : bool :=
  match a ?= b with Eq => true | _ => false end.

(** [x < y]; every comparison with NaN is false. *)
Definition ltb (x y : f64) : bool :=
  match x, y with
  | NaN, _ | _, NaN => false
  | Inf true, Inf true => false
  | Inf true, _ => true
  | _, Inf true => false
  | Inf false, _ => false
  | Fin _, Inf false => true
  | Fin a, Fin b => Qc_ltb a b
  end.

Definition gtb (x y : f64) : bool := ltb y x.

(** [x == y]; NaN differs from everything, itself included. *)
Definition eqb (x y : f64) : bool :=
  match x, y with
  | Inf s, Inf t => Bool.eqb s t
  | Fin a, Fin b => Qc_eqb a b
  | _, _ => false
  end.

Definition neg (x : f64) : f64 :=
  match x with
  | NaN => NaN
  | Inf s => Inf (negb s)
  | Fin a => Fin (- a)
  end.

Definition abs (x : f64) : f64 :=
  match x with
  | NaN => NaN
  | Inf _ => Inf false
  | Fin a => Fin (if Qc_ltb a 0 then - a else a)
  end.

Definition add (x y : f64) : f64 :=
  match x, y with
  | NaN, _ | _, NaN => NaN
  | Inf s, Inf t => if Bool.eqb s t then Inf s else NaN
  | Inf s, Fin _ | Fin _, Inf s => Inf s
  | Fin a, Fin b => Fin (a + b)
  end.

Definition sub (x y : f64) : f64 := add x (neg y).

Definition mul (x y : f64) : f64 :=
  match x, y with
  | NaN, _ | _, NaN => NaN
  | Inf s, Inf t => Inf (xorb s t)
  | Inf s, Fin a | Fin a, Inf s =>
      if Qc_eqb a 0 then NaN else Inf (xorb s (Qc_ltb a 0))
  | Fin a, Fin b => Fin (a * b)
  end.

(** Division never raises on these values: a finite non-zero value over
    zero is an infinity of the sign of the numerator, [0 / 0] is NaN. *)
Definition div (x y : f64) : f64 :=
  match x, y with
  | NaN, _ | _, NaN => NaN
  | Inf _, Inf _ => NaN
  | Inf s, Fin b => Inf (xorb s (Qc_ltb b 0))
  | Fin _, Inf _ => Fin 0
  | Fin a, Fin b =>
      if Qc_eqb b 0
      then (if Qc_eqb a 0 then NaN else Inf (Qc_ltb a 0))
      else Fin (a / b)
  end.

(** The order as a proposition, for the statements. *)
Definition lt (x y : f64) : Prop :=
  match x, y with
  | NaN, _ | _, NaN => False
  | Inf true, Inf true => False
  | Inf true, _ => True
  | _, Inf true => False
  | Inf false, _ => False
  | Fin _, Inf false => True
  | Fin a, Fin b => (a < b)%Qc
  end.

Definition is_finite (x : f64) : Prop :=
  match x with Fin _ => True | _ => False end.

Definition isinf (x : f64) : bool :=
  match x with Inf _ => true | _ => false end.

End F.

Declare Scope f64_scope.
Delimit Scope f64_scope with F.
Bind Scope f64_scope with f64.
Infix "+" := F.add : f64_scope.
Infix "-" := F.sub : f64_scope.
Infix "*" := F.mul : f64_scope.
Infix "/" := F.div : f64_scope.
Infix "<" := F.lt : f64_scope.
Notation "x > y" := (F.lt y x) (only parsing) : f64_scope.
Notation "x < y < z" := (F.lt x y /\ F.lt y z) : f64_scope.

(** Decimal constants of the source. *)
Definition dec (n : Z) (d : positive) : f64 := Fin (Q2Qc (n # d)).
Abbreviation int := F.of_Z.

(** ** Python values and exceptions *)

(** A value read from a row: a number, or [None] when the column is absent. *)
Inductive pyval : Type :=
  | PNone : pyval
  | PNum (x : f64) : pyval.

Inductive exn : Type := TypeError | IndexError | KeyError | ValueError.

Inductive exc (A : Type) : Type :=
  | Ok (a : A) : exc A
  | Raise (e : exn) : exc A.
Arguments Ok {A} a.
Arguments Raise {A} e.

Definition bind {A B : Type} (m : exc A) (k : A -> exc B) : exc B :=
  match m with Ok a => k a | Raise e => Raise e end.

Notation "'let*' x := m 'in' k" := (bind m (fun x => k))
  (at level 10, x name, m at level 200, k at level 200).

(** [try: body except Exception: handler] *)
Definition try_except {A : Type} (body : exc A) (handler : exn -> A) : A :=
  match body with Ok a => a | Raise e => handler e end.

(** [a and b] on conditions: [b] is not evaluated when [a] is false. *)
Definition and_then (a b : exc bool) : exc bool :=
  let* c := a in if c then b else Ok false.
Infix "&&&" := and_then (at level 40, left associativity).

Module Py.

Definition binop (f : f64 -> f64 -> f64) (a b : pyval) : exc pyval :=
  match a, b with
  | PNum x, PNum y => Ok (PNum (f x y))
  | _, _ => Raise TypeError
  end.

Definition cmp (f : f64 -> f64 -> bool) (a b : pyval) : exc bool :=
  match a, b with
  | PNum x, PNum y => Ok (f x y)
  | _, _ => Raise TypeError
  end.

Definition gt := cmp F.gtb.
Definition lt := cmp F.ltb.
Definition sub := binop F.sub.
Definition add := binop F.add.
Definition mul := binop F.mul.
Definition div := binop F.div.

Definition abs (a : pyval) : exc pyval :=
  match a with PNum x => Ok (PNum (F.abs x)) | PNone => Raise TypeError end.

(** [min(a, b)] returns [a] unless [b < a]; [max(a, b)] returns [a]
    unless [b > a]. *)
Definition min (a b : pyval) : exc pyval :=
  let* c := lt b a in Ok (if c then b else a).
Definition max (a b : pyval) : exc pyval :=
  let* c := gt b a in Ok (if c then b else a).

(** [pd.isna] on one element. *)
Definition isna (a : pyval) : bool :=
  match a with PNone => true | PNum x => F.isnan x end.

End Py.

Coercion PNum : f64 >-> pyval.

(** ** The signal classes *)

Inductive Signal : Type :=
  | BUY    (* "SINAL DE COMPRA" *)
  | SELL   (* "SINAL DE VENDA" *)
  | HOLD.  (* "AGUARDAR" *)

(** [TradingAnalyzer._determine_signal] *)
Definition _determine_signal (rsi macd_valor sinal_macd ema9 ema21 : pyval)
  : exc Signal :=
  let* buy :=
    Py.gt rsi (int 45) &&& Py.lt rsi (int 75) &&&
    Py.gt macd_valor sinal_macd &&&
    Py.gt ema9 ema21 &&&
    (let* d := Py.sub macd_valor sinal_macd in Py.gt d (dec 1 1000)) in
  if buy then Ok BUY
  else
    let* sell :=
      Py.lt rsi (int 55) &&& Py.gt rsi (int 25) &&&
      Py.lt macd_valor sinal_macd &&&
      Py.lt ema9 ema21 &&&
      (let* d := Py.sub sinal_macd macd_valor in Py.gt d (dec 1 1000)) in
    if sell then Ok SELL else Ok HOLD.

(** ** pandas Series *)

(** A float64 Series over the index of the frame: its values in order. *)
Abbreviation Series := (list f64).

Module Pd.

(** [s.diff()]: NaN first, then [s[i] - s[i-1]]. *)
Definition diff (s : Series) : Series :=
  match s with
  | [] => []
  | _ :: t => NaN :: zip_with F.sub t s
  end.

(** [s > c] and [s < c] against a scalar. *)
Definition gt_scalar (s : Series) (c : f64) : list bool :=
  (fun x => F.gtb x c) <$> s.
Definition lt_scalar (s : Series) (c : f64) : list bool :=
  (fun x => F.ltb x c) <$> s.

(** [s.where(cond, other)]: keeps [s[i]] where [cond[i]], else [other]. *)
Definition where_ (s : Series) (cond : list bool) (other : f64) : Series :=
  zip_with (fun x (c : bool) => if c then x else other) s cond.

Definition neg (s : Series) : Series := F.neg <$> s.
Definition abs (s : Series) : Series := F.abs <$> s.
Definition sub (s t : Series) : Series := zip_with F.sub s t.
Definition div (s t : Series) : Series := zip_with F.div s t.
(** [c + s], [c - s] and [c / s] for a scalar [c]. *)
Definition radd (c : f64) (s : Series) : Series := F.add c <$> s.
Definition rsub (c : f64) (s : Series) : Series := F.sub c <$> s.
Definition rdiv (c : f64) (s : Series) : Series := F.div c <$> s.

Definition sum (xs : list f64) : f64 := foldl F.add (int 0) xs.

(** The trailing window of [w] entries that ends at position [i]. *)
Definition window (w i : nat) (s : Series) : list f64 :=
  take w (drop (i + 1 - w) s).

(** An entry that a rolling window counts: the library replaces the
    infinite entries of the series by NaN before it reads a window, and a
    NaN is a missing observation. *)
Definition observation (x : f64) : bool :=
  negb (F.isnan x) && negb (F.isinf x).

(** [s.rolling(window=w).mean()], with [min_periods] at its default [w]:
    the mean of the window when it holds [w] observations, else NaN.  The
    library keeps a running sum; without rounding that is the sum of the
    window. *)
Definition rolling_mean_at (w i : nat) (s : Series) : f64 :=
  if decide (w <= i + 1)%nat then
    let xs := window w i s in
    if forallb observation xs
    then (sum xs / (int (Z.of_nat w)))%F
    else NaN
  else NaN.

(** A negative window is refused. *)
Definition rolling_mean (w : Z) (s : Series) : exc Series :=
  if decide (w < 0)%Z then Raise ValueError
  else Ok (imap (fun i _ => rolling_mean_at (Z.to_nat w) i s) s).

(** [s.ewm(span=span, adjust=False).mean()].  The state of the loop is
    the running average [weighted], the weight [old_wt] of the past and
    the number [nobs] of observations seen; [min_periods] is 1. *)
Record ewm_state : Type :=
  { weighted : f64; old_wt : f64; nobs : nat }.

Definition ewm_step (alpha : f64) (st : ewm_state) (cur : f64) : ewm_state :=
  let old_wt_factor := (int 1 - alpha)%F in
  let new_wt := alpha in
  let is_observation := negb (F.isnan cur) in
  let nobs' := if is_observation then S (nobs st) else nobs st in
  if negb (F.isnan (weighted st)) then
    let old_wt' := (old_wt st * old_wt_factor)%F in
    if is_observation then
      {| weighted :=
           if negb (F.eqb (weighted st) cur)
           then ((old_wt' * weighted st + new_wt * cur) / (old_wt' + new_wt))%F
           else weighted st;
         old_wt := int 1;
         nobs := nobs' |}
    else {| weighted := weighted st; old_wt := old_wt'; nobs := nobs' |}
  else if is_observation then
    {| weighted := cur; old_wt := old_wt st; nobs := nobs' |}
  else {| weighted := weighted st; old_wt := old_wt st; nobs := nobs' |}.

Definition ewm_out (st : ewm_state) : f64 :=
  if decide (1 <= nobs st)%nat then weighted st else NaN.

Fixpoint ewm_loop (alpha : f64) (st : ewm_state) (vals : list f64) : Series :=
  match vals with
  | [] => []
  | cur :: rest =>
      let st' := ewm_step alpha st cur in
      ewm_out st' :: ewm_loop alpha st' rest
  end.

Definition ewm_alpha (span : Z) : f64 :=
  let com := ((int span - int 1) / int 2)%F in
  (int 1 / (int 1 + com))%F.

Definition ewm_mean (span : Z) (s : Series) : exc Series :=
  if decide (span < 1)%Z then Raise ValueError
  else
    match s with
    | [] => Ok []
    | x0 :: rest =>
        let st0 := {| weighted := x0; old_wt := int 1;
                      nobs := if F.isnan x0 then 0 else 1 |} in
        Ok (ewm_out st0 :: ewm_loop (ewm_alpha span) st0 rest)
    end.

End Pd.

(** ** The analyzer *)

(** The periods set by [TradingAnalyzer.__init__]. *)
Record TradingAnalyzer : Type :=
  { rsi_period : Z;
    macd_fast : Z;
    macd_slow : Z;
    macd_signal : Z;
    ema_short : Z;
    ema_long : Z }.

Definition __init__ : TradingAnalyzer :=
  {| rsi_period := 14;
     macd_fast := 12;
     macd_slow := 26;
     macd_signal := 9;
     ema_short := 9;
     ema_long := 21 |}.

(** [TradingAnalyzer._calculate_rsi] *)
Definition _calculate_rsi (prices : Series) (period : Z) : exc Series :=
  let delta := Pd.diff prices in
  let* gain :=
    Pd.rolling_mean period
      (Pd.where_ delta (Pd.gt_scalar delta (int 0)) (int 0)) in
  let* loss :=
    Pd.rolling_mean period
      (Pd.neg (Pd.where_ delta (Pd.lt_scalar delta (int 0)) (int 0))) in
  let rs := Pd.div gain loss in
  let rsi := Pd.rsub (int 100) (Pd.rdiv (int 100) (Pd.radd (int 1) rs)) in
  Ok rsi.

(** [TradingAnalyzer._calculate_ema] *)
Definition _calculate_ema (prices : Series) (period : Z) : exc Series :=
  Pd.ewm_mean period prices.

(** [TradingAnalyzer._calculate_macd] *)
Definition _calculate_macd (prices : Series) (fast slow signal : Z)
  : exc (Series * Series * Series) :=
  let* ema_fast := _calculate_ema prices fast in
  let* ema_slow := _calculate_ema prices slow in
  let macd_line := Pd.sub ema_fast ema_slow in
  let* signal_line := _calculate_ema macd_line signal in
  let histogram := Pd.sub macd_line signal_line in
  Ok (macd_line, signal_line, histogram).

(** ** Data frames *)

(** A frame: the timestamps of its rows (epoch milliseconds) and its named
    columns.  In a well-formed frame every column is as long as the index. *)
Record DataFrame : Type :=
  { index : list Z;
    columns : gmap string Series }.

Module DF.

Definition wf (df : DataFrame) : Prop :=
  forall c s, columns df !! c = Some s -> length s = length (index df).

Definition len (df : DataFrame) : nat := length (index df).

(** [df.empty]: one of the two axes has length 0. *)
Definition empty (df : DataFrame) : bool :=
  bool_decide (index df = []) || bool_decide (columns df = ∅).

(** A row, as the Series that [iloc] returns: column name to value. *)
Abbreviation Row := (gmap string f64).

(** [df.iloc[-1]] *)
Definition iloc_last (df : DataFrame) : exc Row :=
  match index df with
  | [] => Raise IndexError
  | _ => Ok (omap (fun s : Series => last s) (columns df))
  end.

(** [row.get(key, default)] *)
Definition get (row : Row) (key : string) (default : pyval) : pyval :=
  match row !! key with
  | Some x => PNum x
  | None => default
  end.

(** [pd.to_numeric] on a column that is already float64. *)
Definition to_numeric (s : Series) : Series := s.

(** Statements on a frame that is updated in place: the frame is the
    state, and it survives an exception. *)
Definition m (A : Type) : Type := DataFrame -> exc A * DataFrame.

Definition ret {A : Type} (a : A) : m A := fun df => (Ok a, df).

Definition bind {A B : Type} (c : m A) (k : A -> m B) : m B :=
  fun df =>
    match c df with
    | (Ok a, df') => k a df'
    | (Raise e, df') => (Raise e, df')
    end.

Definition lift {A : Type} (c : exc A) : m A := fun df => (c, df).

(** [df[key]] *)
Definition getitem (key : string) : m Series :=
  fun df =>
    match columns df !! key with
    | Some s => (Ok s, df)
    | None => (Raise KeyError, df)
    end.

(** [df[key] = s] *)
Definition setitem (key : string) (s : Series) : m unit :=
  fun df =>
    (Ok tt, {| index := index df; columns := <[key := s]> (columns df) |}).

End DF.

Notation "'let!' x := c 'in' k" := (DF.bind c (fun x => k))
  (at level 10, x name, c at level 200, k at level 200).
Notation "c ';;' k" := (DF.bind c (fun _ => k))
  (at level 100, k at level 200, right associativity).

(** [TradingAnalyzer.calculate_indicators].  The frame [df] is the copy made
    on entry; the normal path and the handler both return it. *)
Definition calculate_indicators (self : TradingAnalyzer) (df : DataFrame)
  : DataFrame :=
  let body : DF.m unit :=
    let! close := DF.getitem "close" in
    DF.setitem "close" (DF.to_numeric close) ;;
    let! close := DF.getitem "close" in
    let! rsi := DF.lift (_calculate_rsi close (rsi_period self)) in
    DF.setitem "RSI" rsi ;;
    let! close := DF.getitem "close" in
    let! lines :=
      DF.lift (_calculate_macd close (macd_fast self) (macd_slow self)
                 (macd_signal self)) in
    let '(macd_line, signal_line, histogram) := lines in
    DF.setitem "MACD_12_26_9" macd_line ;;
    DF.setitem "MACDs_12_26_9" signal_line ;;
    DF.setitem "MACDh_12_26_9" histogram ;;
    let! close := DF.getitem "close" in
    let! ema := DF.lift (_calculate_ema close (ema_short self)) in
    DF.setitem "EMA9" ema ;;
    let! close := DF.getitem "close" in
    let! ema := DF.lift (_calculate_ema close (ema_long self)) in
    DF.setitem "EMA21" ema ;;
    let! close := DF.getitem "close" in
    DF.setitem "Volume" (Pd.abs (Pd.diff close)) ;;
    let! volume := DF.getitem "Volume" in
    let! avg := DF.lift (Pd.rolling_mean 20 volume) in
    DF.setitem "MediaVolume" avg ;;
    DF.ret tt in
  snd (body df).

(** The record that [generate_signal] returns. *)
Module SignalData.
Record t : Type :=
  { signal : Signal;
    price : pyval;
    rsi : pyval;
    macd : pyval;
    macd_signal : pyval;
    ema9 : pyval;
    ema21 : pyval;
    volume : pyval;
    volume_avg : pyval }.
End SignalData.

(** The body of the [try] of [TradingAnalyzer.generate_signal]. *)
Definition generate_signal_body (df : option DataFrame)
  : exc (option SignalData.t) :=
  match df with
  | None => Ok None
  | Some df =>
      if DF.empty df || bool_decide (DF.len df < 2)%nat then Ok None
      else
        let* latest := DF.iloc_last df in
        let rsi := DF.get latest "RSI" PNone in
        let macd_valor := DF.get latest "MACD_12_26_9" PNone in
        let sinal_macd := DF.get latest "MACDs_12_26_9" PNone in
        let ema9 := DF.get latest "EMA9" PNone in
        let ema21 := DF.get latest "EMA21" PNone in
        let preco := DF.get latest "close" PNone in
        let volume := DF.get latest "Volume" (int 0) in
        let media_volume := DF.get latest "MediaVolume" (int 0) in
        if existsb Py.isna [rsi; macd_valor; sinal_macd; ema9; ema21; preco]
        then Ok None
        else
          let* signal :=
            _determine_signal rsi macd_valor sinal_macd ema9 ema21 in
          Ok (Some {| SignalData.signal := signal;
                      SignalData.price := preco;
                      SignalData.rsi := rsi;
                      SignalData.macd := macd_valor;
                      SignalData.macd_signal := sinal_macd;
                      SignalData.ema9 := ema9;
                      SignalData.ema21 := ema21;
                      SignalData.volume := volume;
                      SignalData.volume_avg := media_volume |})
  end.

(** [TradingAnalyzer.generate_signal] *)
Definition generate_signal (df : option DataFrame) : option SignalData.t :=
  try_except (generate_signal_body df) (fun _ => None).

(** The body of the [try] of [TradingAnalyzer.get_signal_strength]. *)
Definition get_signal_strength_body (signal_data : SignalData.t) : exc pyval :=
  let rsi := SignalData.rsi signal_data in
  let macd := SignalData.macd signal_data in
  let macd_signal := SignalData.macd_signal signal_data in
  let ema9 := SignalData.ema9 signal_data in
  let ema21 := SignalData.ema21 signal_data in
  let strength : pyval := int 0 in
  let* strength :=
    let* c := Py.gt rsi (int 70) in
    if c then Py.add strength (int 2)
    else
      let* c := Py.gt rsi (int 60) in
      if c then Py.add strength (int 1)
      else
        let* c := Py.lt rsi (int 30) in
        if c then Py.sub strength (int 2)
        else
          let* c := Py.lt rsi (int 40) in
          if c then Py.sub strength (int 1) else Ok strength in
  let* d := Py.sub macd macd_signal in
  let* macd_diff := Py.abs d in
  let* c := Py.gt macd macd_signal in
  let* strength :=
    let* x := Py.mul macd_diff (int 100) in
    let* y := Py.min (int 2) x in
    if c then Py.add strength y else Py.sub strength y in
  let* d := Py.sub ema9 ema21 in
  let* a := Py.abs d in
  let* q := Py.div a ema21 in
  let* ema_diff := Py.mul q (int 100) in
  let* c := Py.gt ema9 ema21 in
  let* strength :=
    let* y := Py.min (int 2) ema_diff in
    if c then Py.add strength y else Py.sub strength y in
  let* s := Py.add strength (int 10) in
  let* s := Py.mul s (int 5) in
  let* s := Py.min (int 100) s in
  Py.max (int 0) s.

(** [TradingAnalyzer.get_signal_strength] *)
Definition get_signal_strength (signal_data : SignalData.t) : pyval :=
  try_except (get_signal_strength_body signal_data) (fun _ => PNum (int 50)).

(** ** Messages *)

(** The text of a class, as [_determine_signal] returns it. *)
Definition signal_text (s : Signal) : string :=
  match s with
  | BUY => "🟢 SINAL DE COMPRA"
  | SELL => "🔴 SINAL DE VENDA"
  | HOLD => "🟡 AGUARDAR"
  end.

(** [needle in hay] on strings. *)
Fixpoint contains (needle hay : string) : bool :=
  String.prefix needle hay ||
  match hay with
  | EmptyString => false
  | String _ rest => contains needle rest
  end.

Definition newline : string := String (Ascii.ascii_of_nat 10) EmptyString.

Section Messages.

(** Two things the program takes from its environment: the text that
    [format(x, ".Nf")] gives for a float, and the reading of the clock,
    [datetime.now().strftime('%H:%M:%S')]. *)
Variable format_fixed : nat -> f64 -> string.
Variable now : string.

(** [f"{v:.Nf}"]; [None] does not accept the format. *)
Definition py_format (digits : nat) (v : pyval) : exc string :=
  match v with
  | PNum x => Ok (format_fixed digits x)
  | PNone => Raise TypeError
  end.

(** The text of an actionable message. *)
Definition message_text (signal preco rsi macd trend time : string) : string :=
  signal ++ newline ++ newline ++
  "💰 Bitcoin: $" ++ preco ++ newline ++
  "📈 RSI: " ++ rsi ++ newline ++
  "📉 MACD: " ++ macd ++ newline ++
  "📊 Tendência: " ++ trend ++ newline ++ newline ++
  "⚡ Sinal Automatizado" ++ newline ++
  "⏰ " ++ time.

(** [TradingAnalyzer.format_signal_message].  The variables [emoji] and
    [action] of the source are assigned and never read. *)
Definition format_signal_message (signal_data : SignalData.t) : exc string :=
  let signal := signal_text (SignalData.signal signal_data) in
  let preco := SignalData.price signal_data in
  let rsi := SignalData.rsi signal_data in
  let macd := SignalData.macd signal_data in
  let ema9 := SignalData.ema9 signal_data in
  let ema21 := SignalData.ema21 signal_data in
  if negb (contains "AGUARDAR" signal) then
    let* p := py_format 2 preco in
    let* r := py_format 1 rsi in
    let* m := py_format 4 macd in
    let* up := Py.gt ema9 ema21 in
    Ok (message_text signal p r m (if up then "Alta" else "Baixa") now)
  else Ok signal.

(** ** The history of signals *)

(** A record once [main] has stamped it. *)
Record HistoryEntry : Type :=
  { entry_data : SignalData.t;
    entry_timestamp : string }.

Definition entry_signal (e : HistoryEntry) : string :=
  signal_text (SignalData.signal (entry_data e)).

(** [l[-n:]] for a positive [n]. *)
Definition last_n {A : Type} (n : nat) (l : list A) : list A :=
  drop (length l - n) l.

(** The block of [main] under [if signal_data:], as far as it touches the
    history and the notifier: the new history, and the message handed to
    [enviar_mensagem] if any.  [timestamp] is the reading of the clock that
    stamps the record. *)
Definition main_record_signal (telegram_enabled : bool) (timestamp : string)
    (signals_history : list HistoryEntry) (signal_data : option SignalData.t)
  : list HistoryEntry * option string :=
  match signal_data with
  | None => (signals_history, None)
  | Some data =>
      let entry := {| entry_data := data; entry_timestamp := timestamp |} in
      let changed :=
        match last signals_history with
        | None => true
        | Some previous =>
            negb (String.eqb (entry_signal previous) (entry_signal entry))
        end in
      if changed then
        let appended := signals_history ++ [entry] in
        let kept :=
          if decide (50 < length appended)%nat then last_n 50 appended
          else appended in
        let sent :=
          if telegram_enabled &&
             (contains "COMPRA" (entry_signal entry) ||
              contains "VENDA" (entry_signal entry))
          then
            match format_signal_message data with
            | Ok message => Some message
            | Raise _ => None
            end
          else None in
        (kept, sent)
      else (signals_history, None)
  end.

(** The history after a sequence of evaluations, from the empty one. *)
Definition histories (telegram_enabled : bool)
    (evaluations : list (string * option SignalData.t)) : list HistoryEntry :=
  foldl (fun history ev =>
           fst (main_record_signal telegram_enabled (fst ev) history (snd ev)))
    [] evaluations.

End Messages.

(** ** The data source *)

(** What one call of [requests.get] gives: an exception of the library, or
    a response with its status code.  [prices] is
    [resposta.json()["prices"]], a list of pairs of a time in milliseconds
    and a price; it is [None] when decoding the body or reading the key
    raises. *)
Inductive Response : Type :=
  | RequestException
  | Http (status_code : Z) (prices : option (list (Z * f64))).

(** What the fetcher does to the outside, in order. *)
Inductive Event : Type :=
  | Request
  | Sleep (seconds : Z).

(** [time.sleep(seconds)]: a negative length is refused. *)
Definition sleep (seconds : Z) (log : list Event) : exc unit * list Event :=
  if (seconds <? 0)%Z then (Raise ValueError, log)
  else (Ok tt, log ++ [Sleep seconds]).

(** [l[-limite:]] *)
Definition slice_last {A : Type} (limite : Z) (l : list A) : list A :=
  if (0 <? limite)%Z then last_n (Z.to_nat limite) l
  else drop (Z.to_nat (- limite)) l.

(** The frame built from the rows of a response: the times become the
    index, the prices the [close] column. *)
Definition frame_of_prices (dados : list (Z * f64)) : DataFrame :=
  {| index := dados.*1;
     columns := {[ "close" := DF.to_numeric (dados.*2) ]} |}.

Module DataFetcher.

Record t : Type :=
  { max_retries : Z;
    retry_delay : Z }.

(** [DataFetcher.__init__] *)
Definition __init__ : t := {| max_retries := 5; retry_delay := 10 |}.

Section Fetch.

(** The answer of the network to each request, counted from 0. *)
Variable responses : nat -> Response.
Variables limite tentativas atraso : Z.

(** The loop [for tentativa in range(tentativas)]: the result and the log
    of requests and waits.  Every pass makes one request, so the pass
    [tentativa] reads [responses tentativa]. *)
Fixpoint for_tentativa (range : list nat) (log : list Event)
  : exc (option DataFrame) * list Event :=
  match range with
  | [] => (Ok None, log)
  | tentativa :: range =>
      let log := log ++ [Request] in
      (* the statements after the [try] *)
      let failed (log : list Event) :=
        if (Z.of_nat tentativa <? tentativas - 1)%Z then
          match sleep atraso log with
          | (Ok _, log) => for_tentativa range log
          | (Raise e, log) => (Raise e, log)
          end
        else for_tentativa range log in
      match responses tentativa with
      | RequestException => failed log
      | Http status_code prices =>
          if (status_code =? 200)%Z then
            match prices with
            | Some prices =>
                (Ok (Some (frame_of_prices (slice_last limite prices))), log)
            | None => failed log
            end
          else if (status_code =? 429)%Z then
            match sleep (atraso * 2) log with
            | (Ok _, log) => for_tentativa range log   (* continue *)
            | (Raise _, log) => failed log             (* except Exception *)
            end
          else failed log
      end
  end.

End Fetch.

(** [DataFetcher.obter_dados_btc] *)
Definition obter_dados_btc (self : t) (responses : nat -> Response)
    (limite : Z) (tentativas atraso : option Z)
  : exc (option DataFrame) * list Event :=
  let tentativas := default (max_retries self) tentativas in
  let atraso := default (retry_delay self) atraso in
  for_tentativa responses limite tentativas atraso
    (seq 0 (Z.to_nat tentativas)) [].

End DataFetcher.

(** The frame that [main] evaluates and the record it gets: nothing
    without a frame or with an empty one. *)
Definition main_signal (trading_analyzer : TradingAnalyzer)
    (df : option DataFrame) : option SignalData.t :=
  match df with
  | Some df =>
      if negb (DF.empty df)
      then generate_signal (Some (calculate_indicators trading_analyzer df))
      else None
  | None => None
  end.

(** * Vocabulary of the statements *)

(** ** The decision rule *)

Section Rules.

Variables rsi macd sig ema_s ema_l : f64.

(** The two rules as the specification words them. *)
Definition BuyRule : Prop :=
  (int 45 < rsi < int 75)%F /\ (macd > sig)%F /\ (ema_s > ema_l)%F /\
  (macd - sig > dec 1 1000)%F.

Definition SellRule : Prop :=
  (int 25 < rsi < int 55)%F /\ (macd < sig)%F /\ (ema_s < ema_l)%F /\
  (sig - macd > dec 1 1000)%F.

(** The two conditions as the code tests them on numbers. *)
Definition buy_b : bool :=
  F.ltb (int 45) rsi && F.ltb rsi (int 75) && F.ltb sig macd &&
  F.ltb ema_l ema_s && F.ltb (dec 1 1000) (macd - sig).

Definition sell_b : bool :=
  F.ltb rsi (int 55) && F.ltb (int 25) rsi && F.ltb macd sig &&
  F.ltb ema_s ema_l && F.ltb (dec 1 1000) (sig - macd).

End Rules.

(** ** The classifier *)

Definition num_of (v : pyval) : f64 :=
  match v with PNum x => x | PNone => NaN end.

Definition classify (rsi macd sig ema_s ema_l : pyval) : Signal :=
  if buy_b (num_of rsi) (num_of macd) (num_of sig) (num_of ema_s) (num_of ema_l)
  then BUY
  else if sell_b (num_of rsi) (num_of macd) (num_of sig) (num_of ema_s)
            (num_of ema_l)
       then SELL else HOLD.

(** The last row of a frame that has one. *)
Definition latest_row (df : DataFrame) : DF.Row :=
  omap (fun s : Series => last s) (columns df).

Definition required_keys : list string :=
  ["RSI"; "MACD_12_26_9"; "MACDs_12_26_9"; "EMA9"; "EMA21"; "close"].

Definition has_null (latest : DF.Row) : bool :=
  existsb (fun key => Py.isna (DF.get latest key PNone)) required_keys.

Definition record_of (latest : DF.Row) : SignalData.t :=
  {| SignalData.signal :=
       classify (DF.get latest "RSI" PNone) (DF.get latest "MACD_12_26_9" PNone)
         (DF.get latest "MACDs_12_26_9" PNone) (DF.get latest "EMA9" PNone)
         (DF.get latest "EMA21" PNone);
     SignalData.price := DF.get latest "close" PNone;
     SignalData.rsi := DF.get latest "RSI" PNone;
     SignalData.macd := DF.get latest "MACD_12_26_9" PNone;
     SignalData.macd_signal := DF.get latest "MACDs_12_26_9" PNone;
     SignalData.ema9 := DF.get latest "EMA9" PNone;
     SignalData.ema21 := DF.get latest "EMA21" PNone;
     SignalData.volume := DF.get latest "Volume" (int 0);
     SignalData.volume_avg := DF.get latest "MediaVolume" (int 0) |}.

(** ** Scenarios *)

(** A frame as the data source delivers it: one [close] column. *)
Definition frame_of (prices : Series) : DataFrame :=
  {| index := map Z.of_nat (seq 0 (length prices));
     columns := {[ "close" := prices ]} |}.

(** The fifteen closes of the specification's scenario. *)
Definition spec_prices : Series :=
  map F.of_Z
    [100; 102; 101; 105; 108; 107; 110; 112; 111; 115; 118; 120; 119; 123;
     125]%Z.

(** Fifteen closes that only rise. *)
Definition rising_prices : Series :=
  map F.of_Z [1; 2; 3; 4; 5; 6; 7; 8; 9; 10; 11; 12; 13; 14; 15]%Z.

(** The closes of the scenario with a missing observation before the last
    one. *)
Definition gap_prices : Series :=
  take 14 spec_prices ++ [NaN; int 125].

(** A two-row frame whose latest row holds the BUY snapshot of the
    specification, at the given time, price and volume. *)
Definition snapshot_frame (t0 : Z) (price vol : f64) : DataFrame :=
  {| index := [t0; (t0 + 60000)%Z];
     columns :=
       list_to_map
         [("close", [price; price]);
          ("RSI", [NaN; int 62]);
          ("MACD_12_26_9", [int 0; dec 12 10]);
          ("MACDs_12_26_9", [int 0; dec 9 10]);
          ("EMA9", [price; int 118]);
          ("EMA21", [price; int 110]);
          ("Volume", [NaN; vol]);
          ("MediaVolume", [NaN; NaN])] |}.

(** Insufficient data, as the contract of the classifier lists it. *)
Inductive insufficient : option DataFrame -> Prop :=
  | ins_missing : insufficient None
  | ins_empty df : DF.empty df = true -> insufficient (Some df)
  | ins_short df : (DF.len df < 2)%nat -> insufficient (Some df)
  | ins_null df latest key :
      DF.iloc_last df = Ok latest ->
      In key required_keys ->
      Py.isna (DF.get latest key PNone) = true ->
      insufficient (Some df).

(** The frame without its two volume columns. *)
Definition drop_volume (df : DataFrame) : DataFrame :=
  {| index := index df;
     columns := delete "MediaVolume" (delete "Volume" (columns df)) |}.

(** ** The indicators *)

(** The smoothing factor [2 / (p + 1)], on values and as a rational. *)
Definition smoothing (p : Z) : f64 := (int 2 / (int p + int 1))%F.

Definition alpha_q (p : Z) : Qc := Qc_of_Z 2 / (Qc_of_Z p + 1).

(** The state of the loop once a finite observation has been seen. *)
Definition ewm_running (st : Pd.ewm_state) (w : Qc) : Prop :=
  Pd.weighted st = Fin w /\ Pd.old_wt st = int 1 /\ (1 <= Pd.nobs st)%nat.

(** The two series that are averaged, and the averages at an index. *)
Definition gains (prices : Series) : Series :=
  let delta := Pd.diff prices in
  Pd.where_ delta (Pd.gt_scalar delta (int 0)) (int 0).

Definition losses (prices : Series) : Series :=
  let delta := Pd.diff prices in
  Pd.neg (Pd.where_ delta (Pd.lt_scalar delta (int 0)) (int 0)).

Definition avg_gain (prices : Series) (period : Z) (i : nat) : f64 :=
  Pd.rolling_mean_at (Z.to_nat period) i (gains prices).

Definition avg_loss (prices : Series) (period : Z) (i : nat) : f64 :=
  Pd.rolling_mean_at (Z.to_nat period) i (losses prices).

Definition rsi_of (gain loss : f64) : f64 :=
  (int 100 - int 100 / (int 1 + gain / loss))%F.

(** Finite and not negative. *)
Definition nonneg (x : f64) : Prop := exists q : Qc, x = Fin q /\ 0 <= q.

(** ** Signal strength *)








(** ** Ranges and windows *)

(** A finite value between two bounds. *)
Definition in_range (lo hi : Qc) (x : f64) : Prop :=
  exists q : Qc, x = Fin q /\ lo <= q <= hi.

(** The largest magnitude for which the statements on windows are made.
    It is far below the largest double (about 1.8e308): neither the
    difference of two such values nor the sum of a window of such
    differences leaves the range of the doubles. *)
Definition price_bound : Qc := Qc_of_Z (10 ^ 100).

(** A finite value of moderate size. *)
Definition moderate (x : f64) : Prop :=
  in_range (- price_bound) price_bound x.


(** The evaluation of a series of closes with the default periods. *)
Definition evaluate (prices : Series) : option SignalData.t :=
  generate_signal (Some (calculate_indicators __init__ (frame_of prices))).

(** The frame with one column set. *)
Definition put (key : string) (s : Series) (df : DataFrame) : DataFrame :=
  {| index := index df; columns := <[key := s]> (columns df) |}.

(** The volume proxy and its average, as [calculate_indicators] computes
    them from the closes. *)
Definition volume_of (close : Series) : Series := Pd.abs (Pd.diff close).

Definition volume_avg_of (close : Series) : Series :=
  imap (fun i _ => Pd.rolling_mean_at 20 i (volume_of close)) (volume_of close).

(** The frame after all the steps of [calculate_indicators] succeeded. *)
Definition with_indicators (df : DataFrame)
    (close rsi macd_line signal_line histogram ema9 ema21 : Series)
  : DataFrame :=
  put "MediaVolume" (volume_avg_of close)
    (put "Volume" (volume_of close)
       (put "EMA21" ema21
          (put "EMA9" ema9
             (put "MACDh_12_26_9" histogram
                (put "MACDs_12_26_9" signal_line
                   (put "MACD_12_26_9" macd_line
                      (put "RSI" rsi (put "close" close df)))))))).

(** The names of the columns that [calculate_indicators] writes. *)
Definition indicator_columns : list string :=
  ["close"; "RSI"; "MACD_12_26_9"; "MACDs_12_26_9"; "MACDh_12_26_9";
   "EMA9"; "EMA21"; "Volume"; "MediaVolume"].

(** Periods that the pandas calls accept. *)
Definition valid_periods (self : TradingAnalyzer) : Prop :=
  (0 <= rsi_period self)%Z /\ (1 <= macd_fast self)%Z /\
  (1 <= macd_slow self)%Z /\ (1 <= macd_signal self)%Z /\
  (1 <= ema_short self)%Z /\ (1 <= ema_long self)%Z.

(** ** Histories and fetches *)

(** No two neighbours of a history have the same class. *)
Definition alternating (history : list HistoryEntry) : Prop :=
  forall (i : nat) (a b : HistoryEntry),
    history !! i = Some a -> history !! S i = Some b ->
    SignalData.signal (entry_data a) <> SignalData.signal (entry_data b).

(** The class of [data] differs from the one of the last entry, if any. *)
Definition changed (history : list HistoryEntry) (data : SignalData.t)
  : Prop :=
  forall previous, last history = Some previous ->
    SignalData.signal (entry_data previous) <> SignalData.signal data.

(** A response that gives a frame. *)
Definition usable (r : Response) : bool :=
  match r with
  | Http status_code (Some _) => (status_code =? 200)%Z
  | _ => false
  end.

(** A response that reports the rate limit. *)
Definition rate_limited (r : Response) : bool :=
  match r with
  | Http status_code _ => (status_code =? 429)%Z
  | RequestException => false
  end.

(** The number of requests and the seconds waited in a log. *)
Definition requests (log : list Event) : nat :=
  foldr (fun e n => match e with Request => S n | Sleep _ => n end) 0%nat log.

Definition waited (log : list Event) : Z :=
  foldr (fun e s => match e with Sleep x => (x + s)%Z | Request => s end)
    0%Z log.

(** What a failed pass [tentativa] logs after its request: the wait of a
    rate-limited pass, or the wait between two passes. *)
Definition pause (responses : nat -> Response) (tentativas atraso : Z)
    (tentativa : nat) : list Event :=
  if rate_limited (responses tentativa) then [Sleep (atraso * 2)]
  else if (Z.of_nat tentativa <? tentativas - 1)%Z then [Sleep atraso]
       else [].

(** A network that fails once, reports the rate limit once and then
    answers with two prices. *)
Definition flaky_responses (k : nat) : Response :=
  match k with
  | 0%nat => RequestException
  | 1%nat => Http 429 None
  | _ => Http 200 (Some [(1000%Z, int 100); (61000%Z, int 101)])
  end.

(** A network that is down. *)
Definition no_responses (k : nat) : Response := RequestException.

(** * Properties *)

(** ** The order on values *)

Lemma Qc_ltb_lt (a b : Qc) : F.Qc_ltb a b = true <-> (a < b)%Qc.
Proof.
  unfold F.Qc_ltb. rewrite Qclt_alt.
  destruct (a ?= b); split; congruence.
Qed.

Lemma Qc_eqb_eq (a b : Qc) : F.Qc_eqb a b = true <-> a = b.
Proof.
  unfold F.Qc_eqb. rewrite Qceq_alt.
  destruct (a ?= b); split; congruence.
Qed.

Lemma ltb_lt (x y : f64) : F.ltb x y = true <-> (x < y)%F.
Proof.
  destruct x as [|[]|a], y as [|[]|b]; simpl;
    try (split; [discriminate | tauto]); try tauto.
  apply Qc_ltb_lt.
Qed.

Lemma lt_asym (x y : f64) : (x < y)%F -> (y < x)%F -> False.
Proof.
  destruct x as [|[]|a], y as [|[]|b]; simpl; try tauto.
  intros H1 H2. exact (Qclt_not_le _ _ H1 (Qclt_le_weak _ _ H2)).
Qed.

(** ** The decision rule *)

Section Decision.

Variables rsi macd sig ema_s ema_l : f64.

Lemma determine_signal_num :
  _determine_signal rsi macd sig ema_s ema_l
  = Ok (if buy_b rsi macd sig ema_s ema_l then BUY
        else if sell_b rsi macd sig ema_s ema_l then SELL else HOLD).
Proof.
  unfold _determine_signal, buy_b, sell_b, and_then, Py.gt, Py.lt, Py.sub,
    Py.cmp, Py.binop, F.gtb, bind.
  repeat match goal with
         | |- context [F.ltb ?a ?b] =>
             generalize (F.ltb a b); intros []; cbn [andb]; cbv beta iota
         end; reflexivity.
Qed.

Lemma buy_b_rule :
  buy_b rsi macd sig ema_s ema_l = true <-> BuyRule rsi macd sig ema_s ema_l.
Proof.
  unfold buy_b, BuyRule. rewrite !andb_true_iff, !ltb_lt. tauto.
Qed.

Lemma sell_b_rule :
  sell_b rsi macd sig ema_s ema_l = true <-> SellRule rsi macd sig ema_s ema_l.
Proof.
  unfold sell_b, SellRule. rewrite !andb_true_iff, !ltb_lt. tauto.
Qed.

Lemma rules_exclusive :
  ~ (BuyRule rsi macd sig ema_s ema_l /\ SellRule rsi macd sig ema_s ema_l).
Proof.
  intros [(_ & Hb & _) (_ & Hs & _)]. exact (lt_asym _ _ Hb Hs).
Qed.

End Decision.

(** C1.  On numeric inputs the decision function always returns a class; it
    returns BUY exactly when the BUY rule holds, SELL exactly when the BUY
    rule fails and the SELL rule holds, and HOLD exactly when both fail.
    With rsi = 50, macd = 1.0 and macd_signal = 0.9995 the class is HOLD
    whatever the two averages are, the difference 0.0005 being under the
    0.001 threshold. *)
Theorem determine_signal_rule (rsi macd sig ema_s ema_l : f64) :
  (exists s : Signal,
      _determine_signal rsi macd sig ema_s ema_l = Ok s /\
      (s = BUY <-> BuyRule rsi macd sig ema_s ema_l) /\
      (s = SELL <->
         ~ BuyRule rsi macd sig ema_s ema_l /\
         SellRule rsi macd sig ema_s ema_l) /\
      (s = HOLD <->
         ~ BuyRule rsi macd sig ema_s ema_l /\
         ~ SellRule rsi macd sig ema_s ema_l))
  /\ _determine_signal (int 50) (int 1) (dec 9995 10000) ema_s ema_l = Ok HOLD.
Proof.
  split.
  - rewrite determine_signal_num.
    pose proof (buy_b_rule rsi macd sig ema_s ema_l) as Hb.
    pose proof (sell_b_rule rsi macd sig ema_s ema_l) as Hs.
    assert (forall (b : bool) (P : Prop), (b = true <-> P) ->
              if b then P else ~ P) as Hrefl.
    { intros [] P HP; [apply HP; reflexivity|].
      intros H. apply HP in H. discriminate H. }
    apply Hrefl in Hb, Hs.
    destruct (buy_b rsi macd sig ema_s ema_l),
      (sell_b rsi macd sig ema_s ema_l);
      eexists; (split; [reflexivity|]);
      (split; [|split]); split; intros H;
      first [discriminate H | reflexivity | tauto].
  - rewrite determine_signal_num.
    assert (buy_b (int 50) (int 1) (dec 9995 10000) ema_s ema_l = false) as ->.
    { unfold buy_b. rewrite andb_false_iff. right. vm_compute. reflexivity. }
    assert (sell_b (int 50) (int 1) (dec 9995 10000) ema_s ema_l = false) as ->.
    { unfold sell_b.
      replace (F.ltb (int 1) (dec 9995 10000)) with false
        by (vm_compute; reflexivity).
      rewrite andb_false_r. reflexivity. }
    reflexivity.
Qed.

(** C5.  No input satisfies the BUY rule and the SELL rule together; an
    input that fails both rules is classified HOLD, in particular one
    whose MACD is bullish while the averages are not, or whose MACD is
    bearish while the averages are not. *)
Theorem buy_sell_exclusive (rsi macd sig ema_s ema_l : f64) :
  ~ (BuyRule rsi macd sig ema_s ema_l /\ SellRule rsi macd sig ema_s ema_l) /\
  (~ BuyRule rsi macd sig ema_s ema_l -> ~ SellRule rsi macd sig ema_s ema_l ->
   _determine_signal rsi macd sig ema_s ema_l = Ok HOLD) /\
  ((macd > sig)%F -> ~ (ema_s > ema_l)%F ->
   _determine_signal rsi macd sig ema_s ema_l = Ok HOLD) /\
  ((macd < sig)%F -> ~ (ema_s < ema_l)%F ->
   _determine_signal rsi macd sig ema_s ema_l = Ok HOLD).
Proof.
  pose proof (buy_b_rule rsi macd sig ema_s ema_l) as Hb.
  pose proof (sell_b_rule rsi macd sig ema_s ema_l) as Hs.
  assert (~ BuyRule rsi macd sig ema_s ema_l ->
          ~ SellRule rsi macd sig ema_s ema_l ->
          _determine_signal rsi macd sig ema_s ema_l = Ok HOLD) as Hhold.
  { intros Hnb Hns. rewrite determine_signal_num.
    destruct (buy_b rsi macd sig ema_s ema_l); [tauto|].
    destruct (sell_b rsi macd sig ema_s ema_l); [tauto|]. reflexivity. }
  split; [apply rules_exclusive|].
  split; [exact Hhold|].
  split; intros Hm He; apply Hhold.
  - intros (_ & _ & H & _). tauto.
  - intros (_ & H & _). exact (lt_asym _ _ Hm H).
  - intros (_ & H & _). exact (lt_asym _ _ Hm H).
  - intros (_ & _ & H & _). tauto.
Qed.

Lemma buy_sell_exclusive_witness :
  _determine_signal (int 80) (int 2) (int 1) (int 100) (int 95) = Ok HOLD /\
  _determine_signal (int 50) (int 2) (int 1) (int 95) (int 100) = Ok HOLD /\
  _determine_signal (int 50) (int 1) (int 2) (int 100) (int 95) = Ok HOLD.
Proof.
  split; [|split].
  - refine (proj1 (proj2 (buy_sell_exclusive (int 80) (int 2) (int 1) (int 100)
                            (int 95))) _ _).
    + vm_compute. intros ((_ & H) & _). discriminate H.
    + vm_compute. intros ((_ & H) & _). discriminate H.
  - refine (proj1 (proj2 (proj2 (buy_sell_exclusive (int 50) (int 2) (int 1)
                                   (int 95) (int 100)))) _ _).
    + vm_compute. reflexivity.
    + vm_compute. intros H. discriminate H.
  - refine (proj2 (proj2 (proj2 (buy_sell_exclusive (int 50) (int 1) (int 2)
                                   (int 100) (int 95)))) _ _).
    + vm_compute. reflexivity.
    + vm_compute. intros H. discriminate H.
Defined.

(** ** The classifier *)

Lemma isna_false_num (v : pyval) : Py.isna v = false -> v = PNum (num_of v).
Proof. destruct v; [discriminate|reflexivity]. Qed.

Lemma determine_signal_classify (rsi macd sig ema_s ema_l : pyval) :
  Py.isna rsi = false -> Py.isna macd = false -> Py.isna sig = false ->
  Py.isna ema_s = false -> Py.isna ema_l = false ->
  _determine_signal rsi macd sig ema_s ema_l
  = Ok (classify rsi macd sig ema_s ema_l).
Proof.
  intros H1 H2 H3 H4 H5. unfold classify.
  rewrite (isna_false_num _ H1), (isna_false_num _ H2), (isna_false_num _ H3),
    (isna_false_num _ H4), (isna_false_num _ H5).
  apply determine_signal_num.
Qed.

Lemma iloc_last_row (df : DataFrame) :
  DF.empty df = false -> DF.iloc_last df = Ok (latest_row df).
Proof.
  unfold DF.empty, DF.iloc_last, latest_row.
  destruct (index df); [|reflexivity].
  rewrite bool_decide_eq_true_2 by reflexivity. discriminate.
Qed.

(** The body of [generate_signal] never raises: the two guards are passed
    before any operation that could. *)
Lemma generate_signal_body_eq (df : DataFrame) :
  generate_signal_body (Some df)
  = Ok (if DF.empty df || bool_decide (DF.len df < 2)%nat then None
        else if has_null (latest_row df) then None
             else Some (record_of (latest_row df))).
Proof.
  unfold generate_signal_body.
  destruct (DF.empty df) eqn:He; [reflexivity|].
  destruct (bool_decide (DF.len df < 2)%nat); [reflexivity|].
  cbn [orb]. rewrite (iloc_last_row df He). cbn [bind].
  fold required_keys.
  change (existsb Py.isna
            [DF.get (latest_row df) "RSI" PNone;
             DF.get (latest_row df) "MACD_12_26_9" PNone;
             DF.get (latest_row df) "MACDs_12_26_9" PNone;
             DF.get (latest_row df) "EMA9" PNone;
             DF.get (latest_row df) "EMA21" PNone;
             DF.get (latest_row df) "close" PNone])
    with (has_null (latest_row df)).
  destruct (has_null (latest_row df)) eqn:Hn; [reflexivity|].
  unfold has_null, required_keys in Hn. cbn [existsb] in Hn.
  repeat (apply orb_false_elim in Hn; destruct Hn as [? Hn]).
  rewrite determine_signal_classify by assumption.
  reflexivity.
Qed.

Lemma generate_signal_eq (df : DataFrame) :
  generate_signal (Some df)
  = if DF.empty df || bool_decide (DF.len df < 2)%nat then None
    else if has_null (latest_row df) then None
         else Some (record_of (latest_row df)).
Proof.
  unfold generate_signal. rewrite generate_signal_body_eq. reflexivity.
Qed.

Lemma generate_signal_Some (df : DataFrame) (r : SignalData.t) :
  generate_signal (Some df) = Some r ->
  DF.empty df = false /\ (2 <= DF.len df)%nat /\
  has_null (latest_row df) = false /\ r = record_of (latest_row df).
Proof.
  rewrite generate_signal_eq.
  destruct (DF.empty df); [discriminate|].
  case_bool_decide; [discriminate|]. cbn [orb].
  destruct (has_null (latest_row df)); [discriminate|].
  intros [= <-]. repeat split. lia.
Qed.

(** C2.  [generate_signal] never raises, and on insufficient data (no
    frame, an empty frame, fewer than two rows, or a null among the six
    required values of the latest row) its result is [None]. *)
Theorem generate_signal_insufficient (df : option DataFrame) :
  (exists r, generate_signal_body df = Ok r) /\
  (insufficient df ->
   generate_signal_body df = Ok None /\ generate_signal df = None).
Proof.
  split.
  - destruct df as [df|]; [|eexists; reflexivity].
    rewrite generate_signal_body_eq. eexists; reflexivity.
  - intros H.
    assert (generate_signal_body df = Ok None) as Hb.
    { destruct H as [|df He|df Hl|df latest key Hi Hk Hn].
      + reflexivity.
      + rewrite generate_signal_body_eq, He. reflexivity.
      + rewrite generate_signal_body_eq.
        rewrite (bool_decide_eq_true_2 _ Hl), orb_true_r. reflexivity.
      + rewrite generate_signal_body_eq.
        destruct (DF.empty df || bool_decide (DF.len df < 2)%nat);
          [reflexivity|].
        assert (latest = latest_row df) as ->.
        { unfold DF.iloc_last in Hi. destruct (index df); [discriminate|].
          injection Hi as <-. reflexivity. }
        assert (has_null (latest_row df) = true) as ->; [|reflexivity].
        apply existsb_exists. exists key. split; assumption. }
    split; [exact Hb|]. unfold generate_signal. rewrite Hb. reflexivity.
Qed.

Lemma generate_signal_insufficient_witness :
  generate_signal (Some (frame_of [int 100])) = None /\
  generate_signal (Some (frame_of spec_prices)) = None.
Proof.
  split.
  - refine (proj2 (proj2 (generate_signal_insufficient _) _)).
    apply ins_short. vm_compute. lia.
  - refine (proj2 (proj2 (generate_signal_insufficient _) _)).
    apply (ins_null _ (latest_row (frame_of spec_prices)) "RSI").
    + reflexivity.
    + left. reflexivity.
    + vm_compute. reflexivity.
Defined.

(** C7.  Two evaluations that return records with the same five governing
    values return the same class, whatever the frames, prices, timestamps
    and volumes are; the class is the one the decision function gives on
    the five values. *)
Theorem signal_class_noninterference
    (df1 df2 : option DataFrame) (r1 r2 : SignalData.t) :
  generate_signal df1 = Some r1 ->
  generate_signal df2 = Some r2 ->
  SignalData.rsi r1 = SignalData.rsi r2 ->
  SignalData.macd r1 = SignalData.macd r2 ->
  SignalData.macd_signal r1 = SignalData.macd_signal r2 ->
  SignalData.ema9 r1 = SignalData.ema9 r2 ->
  SignalData.ema21 r1 = SignalData.ema21 r2 ->
  SignalData.signal r1 = SignalData.signal r2 /\
  _determine_signal (SignalData.rsi r1) (SignalData.macd r1)
    (SignalData.macd_signal r1) (SignalData.ema9 r1) (SignalData.ema21 r1)
  = Ok (SignalData.signal r1).
Proof.
  intros H1 H2 Ha Hb Hc Hd He.
  destruct df1 as [df1|]; [|discriminate H1].
  destruct df2 as [df2|]; [|discriminate H2].
  apply generate_signal_Some in H1 as (_ & _ & Hn1 & ->).
  apply generate_signal_Some in H2 as (_ & _ & _ & ->).
  cbn [record_of SignalData.signal SignalData.rsi SignalData.macd
         SignalData.macd_signal SignalData.ema9 SignalData.ema21] in *.
  split; [rewrite Ha, Hb, Hc, Hd, He; reflexivity|].
  unfold has_null, required_keys in Hn1. cbn [existsb] in Hn1.
  repeat (apply orb_false_elim in Hn1; destruct Hn1 as [? Hn1]).
  apply determine_signal_classify; assumption.
Qed.

Lemma signal_class_noninterference_witness :
  exists r1 r2 : SignalData.t,
    generate_signal (Some (snapshot_frame 1000 (int 125) (int 2))) = Some r1 /\
    generate_signal (Some (snapshot_frame 2000 (int 90) NaN)) = Some r2 /\
    SignalData.price r1 <> SignalData.price r2 /\
    SignalData.signal r1 = SignalData.signal r2.
Proof.
  eexists. eexists.
  split; [vm_compute; reflexivity|].
  split; [vm_compute; reflexivity|].
  split; [vm_compute; intros H; discriminate H|].
  refine (proj1 (signal_class_noninterference
                   (Some (snapshot_frame 1000 (int 125) (int 2)))
                   (Some (snapshot_frame 2000 (int 90) NaN))
                   _ _ _ _ _ _ _ _ _));
    vm_compute; reflexivity.
Defined.

Lemma latest_row_drop_volume (df : DataFrame) (key : string) :
  key <> "Volume" -> key <> "MediaVolume" ->
  latest_row (drop_volume df) !! key = latest_row df !! key.
Proof.
  intros H1 H2. unfold latest_row, drop_volume. cbn [columns].
  rewrite !lookup_omap, !lookup_delete_ne by congruence. reflexivity.
Qed.

Lemma get_drop_volume (df : DataFrame) (key : string) (d : pyval) :
  key <> "Volume" -> key <> "MediaVolume" ->
  DF.get (latest_row (drop_volume df)) key d = DF.get (latest_row df) key d.
Proof.
  intros H1 H2. unfold DF.get. rewrite latest_row_drop_volume by assumption.
  reflexivity.
Qed.

Lemma get_absent (df : DataFrame) (key : string) (d : pyval) :
  columns df !! key = None -> DF.get (latest_row df) key d = d.
Proof.
  intros H. unfold DF.get, latest_row. rewrite lookup_omap, H. reflexivity.
Qed.

(** C10.  The null guard does not cover the volume fields.  (1) Some
    well-formed frame goes through [calculate_indicators] and
    [generate_signal] to a record whose volume and volume average are NaN.
    (2) The fifteen closes of the scenario, too few for the 20-period
    average, give a record whose volume average is NaN, its volume being
    the last absolute change, 2.  (3) A frame that yields a record still
    yields one without its volume columns, equal but for the two volume
    fields, which are 0. *)
Theorem volume_outside_null_guard :
  (exists (df : DataFrame) (r : SignalData.t),
      DF.wf df /\
      generate_signal (Some (calculate_indicators __init__ df)) = Some r /\
      SignalData.volume r = PNum NaN /\ SignalData.volume_avg r = PNum NaN) /\
  (exists r : SignalData.t,
      generate_signal
        (Some (calculate_indicators __init__ (frame_of spec_prices)))
      = Some r /\
      SignalData.volume r = PNum (int 2) /\
      SignalData.volume_avg r = PNum NaN) /\
  (forall (df : DataFrame) (r : SignalData.t),
      generate_signal (Some df) = Some r ->
      exists r' : SignalData.t,
        generate_signal (Some (drop_volume df)) = Some r' /\
        SignalData.volume r' = PNum (int 0) /\
        SignalData.volume_avg r' = PNum (int 0) /\
        SignalData.signal r' = SignalData.signal r /\
        SignalData.price r' = SignalData.price r /\
        SignalData.rsi r' = SignalData.rsi r /\
        SignalData.macd r' = SignalData.macd r /\
        SignalData.macd_signal r' = SignalData.macd_signal r /\
        SignalData.ema9 r' = SignalData.ema9 r /\
        SignalData.ema21 r' = SignalData.ema21 r).
Proof.
  split; [|split].
  - exists (frame_of gap_prices). eexists.
    split; [|split; [vm_compute; reflexivity|split; reflexivity]].
    intros c s. unfold frame_of. cbn [columns index].
    intros [<- <-]%lookup_singleton_Some. vm_compute. reflexivity.
  - eexists. split; [vm_compute; reflexivity|]. split; [|reflexivity].
    apply (f_equal PNum), (f_equal Fin), Qc_is_canon. vm_compute. reflexivity.
  - intros df r (He & Hl & Hn & ->)%generate_signal_Some.
    exists (record_of (latest_row (drop_volume df))).
    assert (has_null (latest_row (drop_volume df)) = false) as Hn'.
    { rewrite <- Hn. unfold has_null, required_keys. cbn [existsb].
      rewrite !get_drop_volume by (intro; discriminate). reflexivity. }
    split.
    + rewrite generate_signal_eq, Hn'.
      assert (DF.empty (drop_volume df) = false) as ->.
      { unfold DF.empty in *. apply orb_false_elim in He as [He1 He2].
        cbn [drop_volume index columns]. rewrite He1. cbn [orb].
        apply bool_decide_eq_false_2. intros Hc.
        unfold has_null, required_keys in Hn'. cbn [existsb] in Hn'.
        apply orb_false_elim in Hn' as [Hr _].
        unfold DF.get, latest_row, drop_volume in Hr. cbn [columns] in Hr.
        rewrite Hc, omap_empty, lookup_empty in Hr. discriminate Hr. }
      assert (bool_decide (DF.len (drop_volume df) < 2)%nat = false) as ->.
      { apply bool_decide_eq_false_2. unfold DF.len, drop_volume in *.
        cbn [index]. lia. }
      reflexivity.
    + cbn [record_of SignalData.signal SignalData.price SignalData.rsi
             SignalData.macd SignalData.macd_signal SignalData.ema9
             SignalData.ema21 SignalData.volume SignalData.volume_avg].
      repeat match goal with
             | |- context [DF.get (latest_row (drop_volume df)) ?k ?d] =>
                 rewrite (get_drop_volume df k d) by (intro; discriminate)
             end.
      rewrite (get_absent (drop_volume df) "Volume"),
        (get_absent (drop_volume df) "MediaVolume");
        [repeat split| |];
        unfold drop_volume; cbn [columns].
      * apply lookup_delete_eq.
      * rewrite lookup_delete_ne by (intro; discriminate).
        apply lookup_delete_eq.
Qed.

Lemma volume_outside_null_guard_witness :
  exists r' : SignalData.t,
    generate_signal (Some (drop_volume (snapshot_frame 1000 (int 125) (int 2))))
    = Some r' /\
    SignalData.volume r' = PNum (int 0) /\
    SignalData.volume_avg r' = PNum (int 0).
Proof.
  destruct (proj2 (proj2 volume_outside_null_guard)
              (snapshot_frame 1000 (int 125) (int 2))
              (record_of (latest_row (snapshot_frame 1000 (int 125) (int 2)))))
    as (r' & H1 & H2 & H3 & _).
  - vm_compute. reflexivity.
  - exists r'. repeat split; assumption.
Defined.

(** ** The exponential moving average *)

Lemma Qc_eqb_refl (a : Qc) : F.Qc_eqb a a = true.
Proof. apply Qc_eqb_eq. reflexivity. Qed.

Lemma Qc_eqb_neq (a b : Qc) : a <> b -> F.Qc_eqb a b = false.
Proof.
  intros H. destruct (F.Qc_eqb a b) eqn:E; [|reflexivity].
  apply Qc_eqb_eq in E. contradiction.
Qed.

Lemma Qc_two_neq_0 : Qc_of_Z 2 <> 0.
Proof. rewrite <- Z2Qc_inj_0. intros H%Z2Qc_inj. discriminate H. Qed.

Lemma Qc_succ_pos (p : Z) : (1 <= p)%Z -> 0 < Qc_of_Z p + 1.
Proof.
  intros Hp. rewrite <- Z2Qc_inj_1, <- Z2Qc_inj_add, <- Z2Qc_inj_0.
  apply (proj1 (Z2Qc_inj_lt 0 (p + 1))). lia.
Qed.

Lemma Qc_succ_neq_0 (p : Z) : (1 <= p)%Z -> Qc_of_Z p + 1 <> 0.
Proof.
  intros Hp H. pose proof (Qc_succ_pos p Hp) as Hlt.
  rewrite H in Hlt. exact (Qclt_not_eq _ _ Hlt eq_refl).
Qed.

Lemma alpha_expr (p : Z) :
  (1 <= p)%Z -> smoothing p = Fin (alpha_q p).
Proof.
  intros Hp. unfold smoothing, F.of_Z, alpha_q. cbn [F.add F.div].
  rewrite Z2Qc_inj_1, Qc_eqb_neq by (apply Qc_succ_neq_0; exact Hp).
  reflexivity.
Qed.

Lemma ewm_alpha_eq (p : Z) : (1 <= p)%Z -> Pd.ewm_alpha p = Fin (alpha_q p).
Proof.
  intros Hp. pose proof (Qc_succ_neq_0 p Hp) as Hs.
  pose proof Qc_two_neq_0 as H2.
  unfold Pd.ewm_alpha, F.of_Z, F.sub, alpha_q. cbn [F.neg F.add F.div].
  rewrite (Qc_eqb_neq (Qc_of_Z 2) 0) by exact H2.
  cbn [F.add F.div].
  assert (Qc_of_Z 1 + (Qc_of_Z p + - Qc_of_Z 1) / Qc_of_Z 2
          = (Qc_of_Z p + 1) / Qc_of_Z 2) as ->.
  { rewrite Z2Qc_inj_2 in *. rewrite Z2Qc_inj_1. field. exact H2. }
  rewrite Qc_eqb_neq.
  - f_equal. rewrite Z2Qc_inj_2 in *. rewrite Z2Qc_inj_1. field.
    split; assumption.
  - intros H. apply Hs.
    apply (Qcmult_integral_l (/ Qc_of_Z 2)).
    + intros Hi. apply (f_equal (Qcmult (Qc_of_Z 2))) in Hi.
      rewrite Qcmult_inv_r, Qcmult_0_r in Hi by exact H2.
      exact (Q_apart_0_1 Hi).
    + rewrite Qcmult_comm. exact H.
Qed.

Lemma ewm_step_finite (a w c : Qc) (st : Pd.ewm_state) :
  ewm_running st w ->
  ewm_running (Pd.ewm_step (Fin a) st (Fin c)) (c * a + w * (1 - a)).
Proof.
  intros (Hw & Ho & Hn). unfold Pd.ewm_step, ewm_running.
  rewrite Hw, Ho. cbn [F.isnan negb F.eqb F.of_Z F.sub F.neg F.add F.mul F.div
                         Pd.weighted Pd.old_wt Pd.nobs].
  rewrite Z2Qc_inj_1.
  split; [|split; [reflexivity|lia]].
  destruct (F.Qc_eqb w c) eqn:E; cbn [negb].
  - apply Qc_eqb_eq in E. subst c. f_equal. ring.
  - assert (1 * (1 + - a) + a = 1) as -> by ring.
    rewrite (Qc_eqb_neq 1 0) by exact Q_apart_0_1.
    f_equal. rewrite (right_id 1 Qcdiv). ring.
Qed.

Lemma ewm_out_running (st : Pd.ewm_state) (w : Qc) :
  ewm_running st w -> Pd.ewm_out st = Fin w.
Proof.
  intros (Hw & _ & Hn). unfold Pd.ewm_out.
  rewrite decide_True by exact Hn. exact Hw.
Qed.

Lemma ewm_loop_length (alpha : f64) (st : Pd.ewm_state) (vals : list f64) :
  length (Pd.ewm_loop alpha st vals) = length vals.
Proof.
  revert st. induction vals as [|cur rest IH]; intros st; [reflexivity|].
  cbn [Pd.ewm_loop length]. rewrite IH. reflexivity.
Qed.

Lemma ewm_mean_length (span : Z) (s ema : Series) :
  Pd.ewm_mean span s = Ok ema -> length ema = length s.
Proof.
  unfold Pd.ewm_mean. case_decide; [discriminate|].
  destruct s as [|x0 rest]; intros [= <-]; [reflexivity|].
  cbn [length]. rewrite ewm_loop_length. reflexivity.
Qed.

Lemma ewm_mean_ok (span : Z) (s : Series) :
  (1 <= span)%Z -> exists ema, Pd.ewm_mean span s = Ok ema.
Proof.
  intros Hs. unfold Pd.ewm_mean. rewrite decide_False by lia.
  destruct s; eexists; reflexivity.
Qed.

(** The recurrence, along the loop. *)
Lemma ewm_loop_recurrence (a : Qc) (vals : list f64) :
  Forall F.is_finite vals ->
  forall (st : Pd.ewm_state) (w : Qc) (x0 : f64),
    ewm_running st w ->
    forall (i : nat) (c e : f64),
      (x0 :: vals) !! S i = Some c ->
      (Pd.ewm_out st :: Pd.ewm_loop (Fin a) st vals) !! i = Some e ->
      (Pd.ewm_out st :: Pd.ewm_loop (Fin a) st vals) !! S i
      = Some (c * Fin a + e * (int 1 - Fin a))%F.
Proof.
  induction 1 as [|cur rest Hcur Hrest IH]; intros st w x0 Hst i c e Hc He.
  - destruct i; discriminate Hc.
  - destruct cur as [| |q]; try contradiction.
    pose proof (ewm_step_finite a w q st Hst) as Hst'.
    cbn [Pd.ewm_loop].
    destruct i as [|i].
    + cbn in Hc, He |- *. injection Hc as <-. injection He as <-.
      rewrite (ewm_out_running _ _ Hst'), (ewm_out_running _ _ Hst).
      unfold F.of_Z, F.sub. cbn [F.neg F.add F.mul].
      rewrite Z2Qc_inj_1. reflexivity.
    + change ((Pd.ewm_out (Pd.ewm_step (Fin a) st (Fin q))
               :: Pd.ewm_loop (Fin a) (Pd.ewm_step (Fin a) st (Fin q)) rest)
                !! S i = Some (c * Fin a + e * (int 1 - Fin a))%F).
      apply (IH _ _ (Fin q) Hst'); assumption.
Qed.

(** A constant series is its own average. *)
Lemma ewm_loop_constant (alpha v : f64) (n : nat) (st : Pd.ewm_state) :
  Pd.weighted st = v -> v = NaN \/ (1 <= Pd.nobs st)%nat ->
  Pd.ewm_loop alpha st (replicate n v) = replicate n v.
Proof.
  revert st. induction n as [|n IH]; intros st Hw Hn; [reflexivity|].
  cbn [replicate Pd.ewm_loop].
  assert (Pd.weighted (Pd.ewm_step alpha st v) = v /\
          (v = NaN \/ (1 <= Pd.nobs (Pd.ewm_step alpha st v))%nat))
    as [Hw' Hn'].
  { unfold Pd.ewm_step. rewrite Hw.
    destruct v as [|s|q]; cbn [F.isnan negb F.eqb Pd.weighted Pd.nobs].
    - split; [reflexivity|left; reflexivity].
    - rewrite eqb_reflx. cbn [negb Pd.weighted Pd.nobs].
      split; [reflexivity|right; lia].
    - rewrite Qc_eqb_refl. cbn [negb Pd.weighted Pd.nobs].
      split; [reflexivity|right; lia]. }
  rewrite (IH _ Hw' Hn'). f_equal.
  unfold Pd.ewm_out. case_decide; [exact Hw'|].
  destruct Hn' as [->|?]; [reflexivity|lia].
Qed.

(** C4.  For a series of finite closes and a period [p >= 1] the average
    is defined at every index, starts at the first close and follows
    [ema[i] = close[i] * alpha + ema[i-1] * (1 - alpha)] with
    [alpha = 2 / (p + 1)]; on a constant series it is that constant at
    every index. *)
Theorem ema_recurrence (prices : Series) (p : Z) :
  (1 <= p)%Z ->
  Forall F.is_finite prices ->
  exists ema : Series,
    _calculate_ema prices p = Ok ema /\
    length ema = length prices /\
    ema !! 0%nat = prices !! 0%nat /\
    (forall (i : nat) (c e : f64),
        prices !! S i = Some c -> ema !! i = Some e ->
        ema !! S i = Some (c * smoothing p + e * (int 1 - smoothing p))%F) /\
    (forall v : f64, prices = replicate (length prices) v -> ema = prices).
Proof.
  intros Hp Hfin. unfold _calculate_ema.
  destruct (ewm_mean_ok p prices Hp) as [ema Hema].
  exists ema. split; [exact Hema|].
  split; [exact (ewm_mean_length _ _ _ Hema)|].
  unfold Pd.ewm_mean in Hema. rewrite decide_False in Hema by lia.
  destruct prices as [|x0 rest]; injection Hema as <-.
  { split; [reflexivity|]. split; [|reflexivity].
    intros i c e Hc. discriminate Hc. }
  apply Forall_cons in Hfin as [Hx0 Hrest].
  destruct x0 as [| |q0]; try contradiction.
  set (st0 := {| Pd.weighted := Fin q0; Pd.old_wt := int 1; Pd.nobs := 1 |}).
  assert (ewm_running st0 q0) as Hst0 by (repeat split; cbn; lia).
  cbn [F.isnan]. fold st0.
  split; [cbn; rewrite (ewm_out_running _ _ Hst0); reflexivity|].
  split.
  - intros i c e Hc He.
    rewrite (alpha_expr p Hp). rewrite (ewm_alpha_eq p Hp) in *.
    apply (ewm_loop_recurrence _ _ Hrest st0 q0 (Fin q0) Hst0); assumption.
  - intros v Hv. cbn [length replicate] in Hv. injection Hv as <- Hv.
    rewrite (ewm_out_running _ _ Hst0). f_equal.
    rewrite Hv at 1.
    rewrite ewm_loop_constant; [symmetry; exact Hv|reflexivity|].
    right. cbn. lia.
Qed.

Lemma ema_recurrence_witness :
  exists ema : Series,
    _calculate_ema spec_prices 9 = Ok ema /\
    ema !! 0%nat = Some (int 100) /\
    ema !! 1%nat
    = Some (int 102 * smoothing 9 + int 100 * (int 1 - smoothing 9))%F.
Proof.
  destruct (ema_recurrence spec_prices 9) as (ema & H1 & _ & H3 & H4 & _).
  - lia.
  - vm_compute. repeat constructor.
  - exists ema. split; [exact H1|]. split; [exact H3|].
    apply H4; [reflexivity|exact H3].
Defined.

(** ** MACD *)

(** C8.  For periods [>= 1] the three MACD series are defined at every
    index of the input; there the MACD line is the fast average minus the
    slow one, the signal line is [_calculate_ema] applied to the MACD line,
    and the histogram is the MACD line minus the signal line. *)
Theorem macd_histogram (prices : Series) (fast slow signal : Z) :
  (1 <= fast)%Z -> (1 <= slow)%Z -> (1 <= signal)%Z ->
  exists macd_line signal_line histogram ema_fast ema_slow : Series,
    _calculate_macd prices fast slow signal
    = Ok (macd_line, signal_line, histogram) /\
    _calculate_ema prices fast = Ok ema_fast /\
    _calculate_ema prices slow = Ok ema_slow /\
    _calculate_ema macd_line signal = Ok signal_line /\
    forall i : nat,
      (i < length prices)%nat ->
      exists f s g : f64,
        ema_fast !! i = Some f /\ ema_slow !! i = Some s /\
        macd_line !! i = Some (f - s)%F /\
        signal_line !! i = Some g /\
        histogram !! i = Some ((f - s) - g)%F.
Proof.
  intros Hf Hs Hg. unfold _calculate_macd, _calculate_ema.
  destruct (ewm_mean_ok fast prices Hf) as [ema_fast Hef].
  destruct (ewm_mean_ok slow prices Hs) as [ema_slow Hes].
  destruct (ewm_mean_ok signal (Pd.sub ema_fast ema_slow) Hg)
    as [signal_line Hsl].
  exists (Pd.sub ema_fast ema_slow), signal_line,
    (Pd.sub (Pd.sub ema_fast ema_slow) signal_line), ema_fast, ema_slow.
  rewrite Hef, Hes. cbn [bind]. rewrite Hsl. cbn [bind].
  repeat (split; [reflexivity|]).
  intros i Hi.
  pose proof (ewm_mean_length _ _ _ Hef) as Lf.
  pose proof (ewm_mean_length _ _ _ Hes) as Ls.
  pose proof (ewm_mean_length _ _ _ Hsl) as Lg.
  unfold Pd.sub in *. rewrite length_zip_with in Lg.
  destruct (lookup_lt_is_Some_2 ema_fast i) as [f Hfi]; [lia|].
  destruct (lookup_lt_is_Some_2 ema_slow i) as [s Hsi]; [lia|].
  destruct (lookup_lt_is_Some_2 signal_line i) as [g Hgi]; [lia|].
  exists f, s, g.
  rewrite !lookup_zip_with, Hfi, Hsi, Hgi. repeat split.
Qed.

Lemma macd_histogram_witness :
  exists macd_line signal_line histogram : Series,
    _calculate_macd spec_prices 12 26 9
    = Ok (macd_line, signal_line, histogram) /\
    exists m g : f64,
      macd_line !! 14%nat = Some m /\ signal_line !! 14%nat = Some g /\
      histogram !! 14%nat = Some (m - g)%F.
Proof.
  destruct (macd_histogram spec_prices 12 26 9)
    as (m & s & h & ef & es & H1 & _ & _ & _ & H5); [lia|lia|lia|].
  exists m, s, h. split; [exact H1|].
  destruct (H5 14%nat) as (f & sl & g & _ & _ & Hm & Hg & Hh).
  - vm_compute. lia.
  - exists (f - sl)%F, g. repeat split; assumption.
Defined.

(** ** RSI *)

Lemma diff_length (s : Series) : length (Pd.diff s) = length s.
Proof.
  destruct s as [|x t]; [reflexivity|].
  cbn [Pd.diff length]. rewrite length_zip_with. cbn [length]. lia.
Qed.

Lemma where_fmap (s : Series) (f : f64 -> bool) (other : f64) :
  Pd.where_ s (f <$> s) other = (fun x => if f x then x else other) <$> s.
Proof.
  unfold Pd.where_. induction s as [|x t IH]; [reflexivity|].
  cbn [fmap list_fmap zip_with]. f_equal. exact IH.
Qed.

Lemma gains_length (prices : Series) : length (gains prices) = length prices.
Proof.
  unfold gains, Pd.gt_scalar. rewrite where_fmap, length_fmap.
  apply diff_length.
Qed.

Lemma losses_length (prices : Series) : length (losses prices) = length prices.
Proof.
  unfold losses, Pd.lt_scalar, Pd.neg.
  rewrite where_fmap, !length_fmap. apply diff_length.
Qed.

(** The RSI at an index is a function of the two averages there; the
    computation never raises for a window that is not negative. *)
Lemma calculate_rsi_lookup (prices : Series) (period : Z) :
  (0 <= period)%Z ->
  exists rsi : Series,
    _calculate_rsi prices period = Ok rsi /\
    length rsi = length prices /\
    forall i : nat,
      (i < length prices)%nat ->
      rsi !! i
      = Some (rsi_of (avg_gain prices period i) (avg_loss prices period i)).
Proof.
  intros Hp. unfold _calculate_rsi, Pd.rolling_mean.
  destruct (decide (period < 0)%Z) as [Hneg|_]; [lia|]. cbn [bind].
  fold (gains prices). fold (losses prices).
  eexists. split; [reflexivity|].
  unfold Pd.rsub, Pd.rdiv, Pd.radd, Pd.div.
  split.
  - rewrite !length_fmap, length_zip_with, !length_imap,
      gains_length, losses_length. lia.
  - intros i Hi.
    destruct (lookup_lt_is_Some_2 (gains prices) i) as [g Hg];
      [rewrite gains_length; exact Hi|].
    destruct (lookup_lt_is_Some_2 (losses prices) i) as [l Hl];
      [rewrite losses_length; exact Hi|].
    rewrite !list_lookup_fmap, lookup_zip_with, !list_lookup_imap, Hg, Hl.
    reflexivity.
Qed.

(** C6.  The RSI computation returns a series as long as the input and
    raises nothing; at an index where the average loss is 0 and the
    average gain is positive, the RSI is 100. *)
Theorem rsi_zero_loss (prices : Series) (period : Z) :
  (0 <= period)%Z ->
  exists rsi : Series,
    _calculate_rsi prices period = Ok rsi /\
    length rsi = length prices /\
    forall (i : nat) (g : Qc),
      (i < length prices)%nat ->
      avg_loss prices period i = Fin 0 ->
      avg_gain prices period i = Fin g ->
      0 < g ->
      rsi !! i = Some (int 100).
Proof.
  intros Hp.
  destruct (calculate_rsi_lookup prices period Hp) as (rsi & H1 & H2 & H3).
  exists rsi. split; [exact H1|]. split; [exact H2|].
  intros i g Hi Hl Hg Hpos. rewrite (H3 i Hi), Hl, Hg. f_equal.
  unfold rsi_of. cbn [F.div].
  rewrite Qc_eqb_refl, (Qc_eqb_neq g 0)
    by (intros ->; exact (Qclt_not_eq _ _ Hpos eq_refl)).
  assert (F.Qc_ltb g 0 = false) as ->.
  { destruct (F.Qc_ltb g 0) eqn:E; [|reflexivity].
    apply Qc_ltb_lt in E.
    destruct (Qclt_not_le _ _ E (Qclt_le_weak _ _ Hpos)). }
  unfold F.of_Z, F.sub. cbn [F.add F.div F.neg]. f_equal. ring.
Qed.

Lemma rsi_zero_loss_witness :
  exists rsi : Series,
    _calculate_rsi rising_prices 14 = Ok rsi /\
    rsi !! 14%nat = Some (int 100).
Proof.
  destruct (rsi_zero_loss rising_prices 14) as (rsi & H1 & _ & H3); [lia|].
  exists rsi. split; [exact H1|].
  apply (H3 14%nat 1).
  - vm_compute. lia.
  - apply (f_equal Fin). apply Qc_is_canon. vm_compute. reflexivity.
  - apply (f_equal Fin). apply Qc_is_canon. vm_compute. reflexivity.
  - reflexivity.
Defined.

Lemma Qc_of_Z_0 : Qc_of_Z 0 = 0.
Proof. exact Z2Qc_inj_0. Qed.

Lemma nonneg_zero : nonneg (int 0).
Proof.
  exists 0. split; [|apply Qcle_refl].
  unfold F.of_Z. rewrite Qc_of_Z_0. reflexivity.
Qed.







Lemma foldl_add_nonneg (xs : list f64) (acc : f64) :
  Forall nonneg xs -> nonneg acc -> nonneg (foldl F.add acc xs).
Proof.
  intros H. revert acc. induction H as [|x xs Hx Hxs IH]; intros acc Ha;
    [exact Ha|].
  cbn [foldl]. apply IH.
  destruct Ha as (a & -> & Ha), Hx as (b & -> & Hb).
  exists (a + b). split; [reflexivity|].
  replace 0 with (0 + 0) by ring. apply Qcplus_le_compat; assumption.
Qed.

Lemma forallb_notnan (xs : list f64) :
  Forall nonneg xs -> forallb Pd.observation xs = true.
Proof.
  induction 1 as [|x xs (q & -> & _) _ IH]; [reflexivity|].
  cbn [forallb Pd.observation F.isnan F.isinf negb andb]. exact IH.
Qed.


(** Before the window is full the rolling mean is NaN. *)
Lemma rolling_mean_warm_up (w i : nat) (s : Series) :
  (i + 1 < w)%nat -> Pd.rolling_mean_at w i s = NaN.
Proof.
  intros H. unfold Pd.rolling_mean_at. rewrite decide_False by lia. reflexivity.
Qed.


(** ** Signal strength *)

Lemma Qc_ltb_decide (a b : Qc) : F.Qc_ltb a b = bool_decide (a < b).
Proof.
  destruct (F.Qc_ltb a b) eqn:E; symmetry.
  - apply bool_decide_eq_true_2, Qc_ltb_lt, E.
  - apply bool_decide_eq_false_2. intros H%Qc_ltb_lt. congruence.
Qed.





Lemma abs_fin (a : Qc) : F.abs (Fin a) = Fin (Qcabs a).
Proof.
  cbn [F.abs]. f_equal. rewrite Qc_ltb_decide. case_bool_decide as H.
  - symmetry. apply Qcabs_neg, Qclt_le_weak, H.
  - symmetry. apply Qcabs_pos, Qcnot_lt_le, H.
Qed.









(** * Further properties of the indicators *)

(** ** The range of the RSI *)

Lemma Qc_div_nonneg (a d : Qc) : 0 <= a -> 0 < d -> 0 <= a / d.
Proof.
  intros Ha Hd. unfold Qcdiv. replace 0 with (0 * / d) by ring.
  apply Qcmult_le_compat_r; [exact Ha|].
  apply Qclt_le_weak, Qcinv_pos, Hd.
Qed.






(** ** When the RSI is defined *)

Lemma diff_lookup_0 (prices : Series) (x : f64) :
  Pd.diff prices !! 0%nat = Some x -> x = NaN.
Proof. destruct prices; [discriminate|]. intros [= <-]. reflexivity. Qed.

Lemma diff_lookup_S (prices : Series) (k : nat) (a b : f64) :
  prices !! S k = Some a -> prices !! k = Some b ->
  Pd.diff prices !! S k = Some (a - b)%F.
Proof.
  destruct prices as [|x t]; [discriminate|].
  cbn [Pd.diff]. intros Ha Hb.
  change ((NaN :: zip_with F.sub t (x :: t)) !! S k)
    with (zip_with F.sub t (x :: t) !! k).
  change ((x :: t) !! S k) with (t !! k) in Ha.
  rewrite lookup_zip_with, Ha. cbn [mbind option_bind]. rewrite Hb. reflexivity.
Qed.





Lemma window_Forall (P : f64 -> Prop) (w i : nat) (s : Series) :
  (1 <= w <= i + 1)%nat ->
  Forall P (Pd.window w i s) <->
  forall (j : nat) (x : f64),
    (i + 1 - w <= j <= i)%nat -> s !! j = Some x -> P x.
Proof.
  intros Hw. unfold Pd.window. rewrite Forall_lookup. split.
  - intros H j x Hj Hx. apply (H (j - (i + 1 - w))%nat x).
    rewrite lookup_take_lt by lia. rewrite lookup_drop.
    replace (i + 1 - w + (j - (i + 1 - w)))%nat with j by lia. exact Hx.
  - intros H m x Hm.
    assert (m < w)%nat as Hlt.
    { destruct (decide (m < w)%nat) as [?|Hge]; [assumption|].
      rewrite lookup_take_ge in Hm by lia. discriminate Hm. }
    rewrite lookup_take_lt, lookup_drop in Hm by lia.
    apply (H (i + 1 - w + m)%nat x); [lia|exact Hm].
Qed.






(** Values of moderate size are finite. *)
Lemma moderate_finite (s : Series) :
  Forall moderate s -> Forall F.is_finite s.
Proof.
  intros H. apply (Forall_impl _ _ _ H). intros x (q & -> & _). exact I.
Qed.

Lemma moderate_int (n : Z) :
  (- 10 ^ 100 <= n <= 10 ^ 100)%Z -> moderate (int n).
Proof.
  intros [H1 H2]. exists (Qc_of_Z n). split; [reflexivity|].
  unfold price_bound. rewrite <- Z2Qc_inj_opp.
  split; [exact (proj1 (Z2Qc_inj_le _ _) H1)|exact (proj1 (Z2Qc_inj_le _ _) H2)].
Qed.

Lemma moderate_ints (l : list Z) :
  forallb (fun n => (- 10 ^ 100 <=? n)%Z && (n <=? 10 ^ 100)%Z) l = true ->
  Forall moderate (map F.of_Z l).
Proof.
  induction l as [|n l IH]; cbn [forallb map]; intros H; [constructor|].
  apply andb_true_iff in H as [[H1 H2]%andb_true_iff Hl].
  constructor; [|exact (IH Hl)].
  apply moderate_int. split; [apply Z.leb_le, H1|apply Z.leb_le, H2].
Qed.

Lemma moderate_spec_prices : Forall moderate spec_prices.
Proof. apply moderate_ints. vm_compute. reflexivity. Qed.





(** ** The steps of [calculate_indicators] *)

Ltac lookup_puts :=
  repeat (rewrite lookup_insert_eq
          || rewrite lookup_insert_ne by (let H := fresh in intro H; discriminate H)).

(** The frame at each point where [calculate_indicators] can stop. *)
Lemma calculate_indicators_eq (self : TradingAnalyzer) (df : DataFrame) :
  calculate_indicators self df =
  match columns df !! "close" with
  | None => df
  | Some close =>
      let d1 := put "close" close df in
      match _calculate_rsi close (rsi_period self) with
      | Raise _ => d1
      | Ok rsi =>
          let d2 := put "RSI" rsi d1 in
          match _calculate_macd close (macd_fast self) (macd_slow self)
                  (macd_signal self) with
          | Raise _ => d2
          | Ok (macd_line, signal_line, histogram) =>
              let d3 :=
                put "MACDh_12_26_9" histogram
                  (put "MACDs_12_26_9" signal_line
                     (put "MACD_12_26_9" macd_line d2)) in
              match _calculate_ema close (ema_short self) with
              | Raise _ => d3
              | Ok ema9 =>
                  let d4 := put "EMA9" ema9 d3 in
                  match _calculate_ema close (ema_long self) with
                  | Raise _ => d4
                  | Ok ema21 =>
                      with_indicators df close rsi macd_line signal_line
                        histogram ema9 ema21
                  end
              end
          end
      end
  end.
Proof.
  unfold calculate_indicators, with_indicators, put, DF.bind, DF.getitem,
    DF.setitem, DF.lift, DF.ret, DF.to_numeric.
  destruct (columns df !! "close") as [close|]; [|reflexivity].
  cbn [columns index snd]. lookup_puts.
  destruct (_calculate_rsi close (rsi_period self)) as [rsi|]; [|reflexivity].
  cbn [columns index snd]. lookup_puts.
  destruct (_calculate_macd close (macd_fast self) (macd_slow self)
              (macd_signal self)) as [[[m s] h]|]; [|reflexivity].
  cbn [columns index snd]. lookup_puts.
  destruct (_calculate_ema close (ema_short self)) as [e9|]; [|reflexivity].
  cbn [columns index snd]. lookup_puts.
  destruct (_calculate_ema close (ema_long self)) as [e21|]; [|reflexivity].
  cbn [columns index snd]. lookup_puts.
  unfold Pd.rolling_mean. rewrite decide_False by lia.
  cbn [columns index snd]. reflexivity.
Qed.

Lemma calculate_rsi_length (prices rsi : Series) (period : Z) :
  _calculate_rsi prices period = Ok rsi -> length rsi = length prices.
Proof.
  unfold _calculate_rsi, Pd.rolling_mean.
  destruct (decide (period < 0)%Z); [discriminate|]. cbn [bind].
  intros [= <-]. unfold Pd.rsub, Pd.rdiv, Pd.radd, Pd.div.
  fold (gains prices). fold (losses prices).
  rewrite !length_fmap, length_zip_with, !length_imap,
    gains_length, losses_length. lia.
Qed.

Lemma calculate_macd_length (prices m s h : Series) (fast slow signal : Z) :
  _calculate_macd prices fast slow signal = Ok (m, s, h) ->
  length m = length prices /\ length s = length prices /\
  length h = length prices.
Proof.
  unfold _calculate_macd, _calculate_ema.
  destruct (Pd.ewm_mean fast prices) as [ef|] eqn:Hf; [|discriminate].
  destruct (Pd.ewm_mean slow prices) as [es|] eqn:Hs; [|discriminate].
  cbn [bind].
  destruct (Pd.ewm_mean signal (Pd.sub ef es)) as [sl|] eqn:Hg; [|discriminate].
  cbn [bind]. intros [= <- <- <-].
  apply ewm_mean_length in Hf, Hs, Hg. unfold Pd.sub in *.
  rewrite !length_zip_with in *. lia.
Qed.

Lemma volume_of_length (close : Series) :
  length (volume_of close) = length close.
Proof. unfold volume_of, Pd.abs. rewrite length_fmap. apply diff_length. Qed.

Lemma volume_avg_of_length (close : Series) :
  length (volume_avg_of close) = length close.
Proof. unfold volume_avg_of. rewrite length_imap. apply volume_of_length. Qed.

Lemma wf_put (key : string) (s : Series) (df : DataFrame) :
  DF.wf df -> length s = length (index df) -> DF.wf (put key s df).
Proof.
  intros Hwf Hs c t. unfold put. cbn [columns index].
  destruct (decide (key = c)) as [->|Hne].
  - rewrite lookup_insert_eq. intros [= <-]. exact Hs.
  - rewrite lookup_insert_ne by exact Hne. apply Hwf.
Qed.

Lemma put_lookup_ne (key c : string) (s : Series) (df : DataFrame) :
  key <> c -> columns (put key s df) !! c = columns df !! c.
Proof. intros H. unfold put. cbn [columns]. apply lookup_insert_ne, H. Qed.

Lemma put_lookup_eq (key : string) (s : Series) (df : DataFrame) :
  columns (put key s df) !! key = Some s.
Proof. unfold put. cbn [columns]. apply lookup_insert_eq. Qed.

Lemma not_indicator_column (key c : string) :
  ~ In key indicator_columns -> In c indicator_columns -> c <> key.
Proof. intros Hn Hc ->. exact (Hn Hc). Qed.

(** X4.  Whatever the periods, and whether or not a step fails,
    [calculate_indicators] returns a frame with the index and the closes of
    its argument; it changes no column other than the nine it writes, and
    if every column of its argument is as long as the index, so is every
    column of the result. *)
Theorem calculate_indicators_keeps_frame (self : TradingAnalyzer)
    (df : DataFrame) :
  index (calculate_indicators self df) = index df /\
  columns (calculate_indicators self df) !! "close" = columns df !! "close" /\
  (forall key : string,
      ~ In key indicator_columns ->
      columns (calculate_indicators self df) !! key = columns df !! key) /\
  (DF.wf df -> DF.wf (calculate_indicators self df)).
Proof.
  rewrite calculate_indicators_eq.
  destruct (columns df !! "close") as [close|] eqn:Hc;
    [|rewrite Hc; repeat split; tauto].
  assert (forall key, ~ In key indicator_columns ->
                      forall c, In c indicator_columns -> c <> key) as Hk
      by (intros key Hn c Hin; exact (not_indicator_column key c Hn Hin)).
  assert (DF.wf df -> length close = length (index df)) as Hlen
      by (intros Hwf; exact (Hwf _ _ Hc)).
  cbv zeta.
  destruct (_calculate_rsi close (rsi_period self)) as [rsi|] eqn:Hr.
  2:{ repeat split; [apply put_lookup_eq| |].
      - intros key Hn. rewrite put_lookup_ne; [reflexivity|].
        apply Hk; [exact Hn|]. cbn. tauto.
      - intros Hwf. apply wf_put; auto. }
  apply calculate_rsi_length in Hr.
  destruct (_calculate_macd close (macd_fast self) (macd_slow self)
              (macd_signal self)) as [[[m s] h]|] eqn:Hm.
  2:{ repeat split; [rewrite put_lookup_ne by discriminate; apply put_lookup_eq| |].
      - intros key Hn. rewrite !put_lookup_ne; [reflexivity| |];
          (apply Hk; [exact Hn|]; cbn; tauto).
      - intros Hwf. repeat apply wf_put; auto; cbn [put index]; rewrite <- Hlen; auto. }
  apply calculate_macd_length in Hm as (Lm & Ls & Lh).
  destruct (_calculate_ema close (ema_short self)) as [e9|] eqn:H9.
  2:{ repeat split;
        [rewrite !put_lookup_ne by discriminate; apply put_lookup_eq| |].
      - intros key Hn.
        repeat (rewrite put_lookup_ne; [|apply Hk; [exact Hn|]; cbn; tauto]).
        reflexivity.
      - intros Hwf. repeat apply wf_put; auto; cbn [put index]; rewrite <- Hlen; auto. }
  apply ewm_mean_length in H9.
  destruct (_calculate_ema close (ema_long self)) as [e21|] eqn:H21.
  2:{ repeat split;
        [rewrite !put_lookup_ne by discriminate; apply put_lookup_eq| |].
      - intros key Hn.
        repeat (rewrite put_lookup_ne; [|apply Hk; [exact Hn|]; cbn; tauto]).
        reflexivity.
      - intros Hwf. repeat apply wf_put; auto; cbn [put index]; rewrite <- Hlen; auto. }
  apply ewm_mean_length in H21.
  unfold with_indicators.
  repeat split;
    [rewrite !put_lookup_ne by discriminate; apply put_lookup_eq| |].
  - intros key Hn.
    repeat (rewrite put_lookup_ne; [|apply Hk; [exact Hn|]; cbn; tauto]).
    reflexivity.
  - intros Hwf. pose proof (volume_of_length close).
    pose proof (volume_avg_of_length close).
    repeat apply wf_put; auto; cbn [put index]; rewrite <- Hlen; auto.
Qed.

Lemma calculate_indicators_keeps_frame_witness :
  DF.wf (calculate_indicators __init__ (frame_of spec_prices)) /\
  columns (calculate_indicators __init__ (frame_of spec_prices)) !! "timestamp"
  = None.
Proof.
  split.
  - apply (calculate_indicators_keeps_frame __init__ (frame_of spec_prices)).
    intros c s. unfold frame_of. cbn [columns index].
    intros [<- <-]%lookup_singleton_Some. vm_compute. reflexivity.
  - rewrite (proj1 (proj2 (proj2 (calculate_indicators_keeps_frame __init__
                                    (frame_of spec_prices))))).
    + reflexivity.
    + cbn. intros H. repeat destruct H as [H|H]; try discriminate H. exact H.
Defined.

(** ** The volume proxy *)

Lemma calculate_indicators_default (df : DataFrame) (close : Series) :
  columns df !! "close" = Some close ->
  exists rsi macd_line signal_line histogram ema9 ema21 : Series,
    _calculate_rsi close 14 = Ok rsi /\
    _calculate_macd close 12 26 9 = Ok (macd_line, signal_line, histogram) /\
    _calculate_ema close 9 = Ok ema9 /\
    _calculate_ema close 21 = Ok ema21 /\
    calculate_indicators __init__ df
    = with_indicators df close rsi macd_line signal_line histogram ema9 ema21.
Proof.
  intros Hc. rewrite calculate_indicators_eq, Hc. cbv zeta.
  cbn [__init__ rsi_period macd_fast macd_slow macd_signal ema_short ema_long].
  destruct (calculate_rsi_lookup close 14) as (rsi & Hr & _); [lia|].
  assert (exists m s h, _calculate_macd close 12 26 9 = Ok (m, s, h))
    as (m & s & h & Hm).
  { unfold _calculate_macd, _calculate_ema.
    destruct (ewm_mean_ok 12 close) as [ef ->]; [lia|].
    destruct (ewm_mean_ok 26 close) as [es ->]; [lia|]. cbn [bind].
    destruct (ewm_mean_ok 9 (Pd.sub ef es)) as [sl ->]; [lia|]. cbn [bind].
    eexists _, _, _. reflexivity. }
  destruct (ewm_mean_ok 9 close) as [e9 H9]; [lia|].
  destruct (ewm_mean_ok 21 close) as [e21 H21]; [lia|].
  exists rsi, m, s, h, e9, e21. unfold _calculate_ema.
  rewrite Hr, Hm, H9, H21. repeat split.
Qed.

Lemma volume_lookup_0 (close : Series) (v : f64) :
  volume_of close !! 0%nat = Some v -> v = NaN.
Proof.
  unfold volume_of, Pd.abs. rewrite list_lookup_fmap.
  destruct (Pd.diff close !! 0%nat) as [d|] eqn:Hd; [|discriminate].
  apply diff_lookup_0 in Hd as ->. intros [= <-]. reflexivity.
Qed.

Lemma volume_lookup_S (close : Series) (k : nat) (a b : f64) :
  close !! S k = Some a -> close !! k = Some b ->
  volume_of close !! S k = Some (F.abs (a - b)).
Proof.
  intros Ha Hb. unfold volume_of, Pd.abs.
  rewrite list_lookup_fmap, (diff_lookup_S close k a b Ha Hb). reflexivity.
Qed.

Lemma abs_sub_nonneg (a b : Qc) : nonneg (F.abs (Fin a - Fin b)).
Proof.
  unfold F.sub. cbn [F.neg F.add]. rewrite abs_fin.
  eexists. split; [reflexivity|apply Qcabs_nonneg].
Qed.

Lemma volume_entries_nonneg (close : Series) (j : nat) (v : f64) :
  Forall F.is_finite close ->
  volume_of close !! S j = Some v -> nonneg v.
Proof.
  intros Hfin Hv. rewrite Forall_lookup in Hfin.
  assert (S j < length close)%nat as Hlt.
  { rewrite <- volume_of_length. apply lookup_lt_is_Some. eexists; exact Hv. }
  destruct (lookup_lt_is_Some_2 close (S j)) as [a Ha]; [lia|].
  destruct (lookup_lt_is_Some_2 close j) as [b Hb]; [lia|].
  rewrite (volume_lookup_S close j a b Ha Hb) in Hv. injection Hv as <-.
  pose proof (Hfin _ _ Ha) as Fa. pose proof (Hfin _ _ Hb) as Fb.
  destruct a as [| |qa], b as [| |qb]; try contradiction.
  apply abs_sub_nonneg.
Qed.

Lemma rolling_mean_window_nonneg (w i : nat) (s : Series) :
  Forall nonneg (Pd.window w i s) -> (1 <= w <= i + 1)%nat ->
  nonneg (Pd.rolling_mean_at w i s).
Proof.
  intros Hwin Hw. unfold Pd.rolling_mean_at.
  rewrite decide_True by lia.
  rewrite (forallb_notnan _ Hwin).
  destruct (foldl_add_nonneg _ (int 0) Hwin nonneg_zero) as (t & Ht & Hpos).
  unfold Pd.sum. rewrite Ht. unfold F.of_Z. cbn [F.div].
  assert (0 < Qc_of_Z (Z.of_nat w)) as Hwpos.
  { rewrite <- Qc_of_Z_0. apply (proj1 (Z2Qc_inj_lt 0 (Z.of_nat w))). lia. }
  rewrite Qc_eqb_neq
    by (intros E; rewrite E in Hwpos; exact (Qclt_not_eq _ _ Hwpos eq_refl)).
  eexists. split; [reflexivity|]. apply Qc_div_nonneg; assumption.
Qed.

Lemma rolling_mean_nan_in_window (w i j : nat) (s : Series) :
  (i + 1 - w <= j <= i)%nat -> s !! j = Some NaN ->
  Pd.rolling_mean_at w i s = NaN.
Proof.
  intros Hj Hs. unfold Pd.rolling_mean_at.
  destruct (decide (w <= i + 1)%nat) as [Hw|]; [|reflexivity].
  destruct (forallb _ (Pd.window w i s)) eqn:E; [|reflexivity].
  rewrite forallb_forall in E.
  assert (In NaN (Pd.window w i s)) as Hin.
  { apply list_elem_of_In, list_elem_of_lookup.
    exists (j - (i + 1 - w))%nat. unfold Pd.window.
    rewrite lookup_take_lt by lia. rewrite lookup_drop.
    replace (i + 1 - w + (j - (i + 1 - w)))%nat with j by lia. exact Hs. }
  specialize (E _ Hin). discriminate E.
Qed.

Lemma nonneg_not_nan (x : f64) : nonneg x -> x <> NaN.
Proof. intros (q & -> & _). discriminate. Qed.

(** X5.  With the default periods and closes of moderate size, the volume
    column is null at index 0 only, where it has no previous close, and is
    the absolute change elsewhere; its 20-period average is null exactly at
    the indices below 20, so that it needs 21 closes. *)
Theorem volume_columns (df : DataFrame) (close : Series) :
  columns df !! "close" = Some close ->
  Forall moderate close ->
  exists vol avg : Series,
    columns (calculate_indicators __init__ df) !! "Volume" = Some vol /\
    columns (calculate_indicators __init__ df) !! "MediaVolume" = Some avg /\
    length vol = length close /\ length avg = length close /\
    (forall (k : nat) (a b : f64),
        close !! S k = Some a -> close !! k = Some b ->
        vol !! S k = Some (F.abs (a - b))) /\
    (forall (i : nat) (v : f64), vol !! i = Some v -> v = NaN <-> i = 0%nat) /\
    (forall (i : nat) (v : f64), avg !! i = Some v -> v = NaN <-> (i < 20)%nat).
Proof.
  intros Hc Hmod. pose proof (moderate_finite _ Hmod) as Hfin.
  destruct (calculate_indicators_default df close Hc)
    as (rsi & m & s & h & e9 & e21 & _ & _ & _ & _ & ->).
  exists (volume_of close), (volume_avg_of close).
  unfold with_indicators.
  split; [rewrite put_lookup_ne by discriminate; apply put_lookup_eq|].
  split; [apply put_lookup_eq|].
  split; [apply volume_of_length|]. split; [apply volume_avg_of_length|].
  split; [intros k a b; apply volume_lookup_S|].
  split.
  - intros [|j] v Hv.
    + apply volume_lookup_0 in Hv. tauto.
    + pose proof (nonneg_not_nan _ (volume_entries_nonneg _ _ _ Hfin Hv)).
      split; [tauto|discriminate].
  - intros i v Hv. unfold volume_avg_of in Hv.
    rewrite list_lookup_imap in Hv.
    destruct (volume_of close !! i) as [vi|] eqn:Hvi; [|discriminate Hv].
    injection Hv as <-.
    assert (i < length close)%nat as Hlt.
    { rewrite <- volume_of_length. apply lookup_lt_is_Some. eexists; exact Hvi. }
    destruct (decide (i < 20)%nat) as [Hi|Hi].
    + split; [tauto|]. intros _.
      destruct (decide (i + 1 < 20)%nat) as [Hs|Hs].
      * apply rolling_mean_warm_up. exact Hs.
      * destruct (lookup_lt_is_Some_2 (volume_of close) 0) as [v0 Hv0];
          [rewrite volume_of_length; lia|].
        pose proof (volume_lookup_0 _ _ Hv0) as ->.
        apply (rolling_mean_nan_in_window 20 i 0); [lia|exact Hv0].
    + split; [|lia]. intros E. exfalso.
      apply (nonneg_not_nan (Pd.rolling_mean_at 20 i (volume_of close)));
        [|exact E].
      apply rolling_mean_window_nonneg; [|lia].
      apply window_Forall; [lia|].
      intros j x Hj Hx. destruct j as [|j]; [lia|].
      exact (volume_entries_nonneg _ _ _ Hfin Hx).
Qed.

Lemma volume_columns_witness :
  exists avg : Series,
    columns (calculate_indicators __init__ (frame_of spec_prices)) !! "MediaVolume"
    = Some avg /\
    avg !! 14%nat = Some NaN.
Proof.
  destruct (volume_columns (frame_of spec_prices) spec_prices)
    as (vol & avg & _ & Ha & _ & La & _ & _ & Hn).
  - reflexivity.
  - exact moderate_spec_prices.
  - exists avg. split; [exact Ha|].
    destruct (lookup_lt_is_Some_2 avg 14) as [v Hv];
      [rewrite La; vm_compute; lia|].
    rewrite Hv. f_equal. apply (Hn 14%nat v Hv). lia.
Defined.

(** ** The evaluation of a series of closes *)









(** ** Failures inside [calculate_indicators] *)

Lemma generate_signal_missing_key (df : DataFrame) (key : string) :
  In key required_keys -> columns df !! key = None ->
  generate_signal (Some df) = None.
Proof.
  intros Hin Hc. rewrite generate_signal_eq.
  destruct (DF.empty df || bool_decide (DF.len df < 2)%nat); [reflexivity|].
  assert (has_null (latest_row df) = true) as ->; [|reflexivity].
  apply existsb_exists. exists key. split; [exact Hin|].
  rewrite (get_absent df key PNone Hc). reflexivity.
Qed.

Lemma calculate_rsi_ok_period (prices rsi : Series) (period : Z) :
  _calculate_rsi prices period = Ok rsi -> (0 <= period)%Z.
Proof.
  unfold _calculate_rsi, Pd.rolling_mean.
  destruct (decide (period < 0)%Z); [discriminate|lia].
Qed.

Lemma calculate_ema_ok_period (prices ema : Series) (period : Z) :
  _calculate_ema prices period = Ok ema -> (1 <= period)%Z.
Proof.
  unfold _calculate_ema, Pd.ewm_mean.
  destruct (decide (period < 1)%Z); [discriminate|lia].
Qed.

Lemma calculate_macd_ok_periods (prices : Series) (fast slow signal : Z)
    (r : Series * Series * Series) :
  _calculate_macd prices fast slow signal = Ok r ->
  (1 <= fast)%Z /\ (1 <= slow)%Z /\ (1 <= signal)%Z.
Proof.
  unfold _calculate_macd.
  destruct (_calculate_ema prices fast) as [ef|] eqn:Hf; [|discriminate].
  destruct (_calculate_ema prices slow) as [es|] eqn:Hs; [|discriminate].
  cbn [bind].
  destruct (_calculate_ema (Pd.sub ef es) signal) as [sl|] eqn:Hg;
    [|discriminate].
  intros _. apply calculate_ema_ok_period in Hf, Hs, Hg. tauto.
Qed.

(** X7.  A frame without a [close] column comes back from
    [calculate_indicators] unchanged, and a frame of closes computed with
    a period that pandas refuses comes back without some required column:
    in both cases [generate_signal] returns no record, and nothing is
    raised. *)
Theorem failed_indicators_give_no_signal (self : TradingAnalyzer) :
  (forall df : DataFrame,
      columns df !! "close" = None ->
      calculate_indicators self df = df /\
      generate_signal (Some (calculate_indicators self df)) = None) /\
  (forall prices : Series,
      ~ valid_periods self ->
      generate_signal (Some (calculate_indicators self (frame_of prices)))
      = None).
Proof.
  split.
  - intros df Hc. rewrite calculate_indicators_eq, Hc.
    split; [reflexivity|].
    apply (generate_signal_missing_key df "close"); [|exact Hc].
    cbn. tauto.
  - intros prices Hbad. rewrite calculate_indicators_eq.
    assert (columns (frame_of prices) !! "close" = Some prices) as ->
        by apply lookup_singleton_eq.
    assert (forall key : string,
               key <> "close" -> columns (frame_of prices) !! key = None) as Hno.
    { intros key Hk. unfold frame_of. cbn [columns].
      apply lookup_singleton_ne. congruence. }
    cbv zeta.
    destruct (_calculate_rsi prices (rsi_period self)) as [rsi|] eqn:Hr.
    2:{ apply (generate_signal_missing_key _ "RSI"); [cbn; tauto|].
        rewrite put_lookup_ne by discriminate. apply Hno. discriminate. }
    destruct (_calculate_macd prices (macd_fast self) (macd_slow self)
                (macd_signal self)) as [[[m s] h]|] eqn:Hm.
    2:{ apply (generate_signal_missing_key _ "MACD_12_26_9"); [cbn; tauto|].
        rewrite !put_lookup_ne by discriminate. apply Hno. discriminate. }
    destruct (_calculate_ema prices (ema_short self)) as [e9|] eqn:H9.
    2:{ apply (generate_signal_missing_key _ "EMA9"); [cbn; tauto|].
        rewrite !put_lookup_ne by discriminate. apply Hno. discriminate. }
    destruct (_calculate_ema prices (ema_long self)) as [e21|] eqn:H21.
    2:{ apply (generate_signal_missing_key _ "EMA21"); [cbn; tauto|].
        rewrite !put_lookup_ne by discriminate. apply Hno. discriminate. }
    exfalso. apply Hbad.
    apply calculate_rsi_ok_period in Hr.
    apply calculate_macd_ok_periods in Hm.
    apply calculate_ema_ok_period in H9, H21.
    unfold valid_periods. tauto.
Qed.

Lemma failed_indicators_give_no_signal_witness :
  generate_signal
    (Some (calculate_indicators
             {| rsi_period := 14; macd_fast := 12; macd_slow := 26;
                macd_signal := 9; ema_short := 9; ema_long := 0 |}
             (frame_of spec_prices))) = None /\
  calculate_indicators __init__ {| index := [1%Z; 2%Z]; columns := ∅ |}
  = {| index := [1%Z; 2%Z]; columns := ∅ |}.
Proof.
  split.
  - apply (failed_indicators_give_no_signal
             {| rsi_period := 14; macd_fast := 12; macd_slow := 26;
                macd_signal := 9; ema_short := 9; ema_long := 0 |}).
    unfold valid_periods. cbn. lia.
  - apply (failed_indicators_give_no_signal __init__). apply lookup_empty.
Defined.

(** * Further properties of the signal strength *)













Ltac run_strength :=
  unfold get_signal_strength, get_signal_strength_body;
  cbn [SignalData.rsi SignalData.macd SignalData.macd_signal
         SignalData.ema9 SignalData.ema21];
  unfold Py.min, Py.max;
  unfold Py.gt, Py.lt, Py.sub, Py.add, Py.mul, Py.div, Py.cmp, Py.binop,
    Py.abs;
  cbn [bind try_except];
  repeat match goal with
         | |- context [if ?b then _ else _] =>
             destruct b; cbn [bind try_except]
         end;
  try reflexivity.

(** X9.  When one of the five values of a record is [None], the strength
    is the neutral 50: the [TypeError] of the first operation on it is
    caught. *)
Theorem strength_neutral_on_missing_value (r : SignalData.t) :
  SignalData.rsi r = PNone \/ SignalData.macd r = PNone \/
  SignalData.macd_signal r = PNone \/ SignalData.ema9 r = PNone \/
  SignalData.ema21 r = PNone ->
  get_signal_strength r = PNum (int 50).
Proof.
  destruct r as [sg pr rsi macd sig e9 e21 vol avg].
  cbn [SignalData.rsi SignalData.macd SignalData.macd_signal
         SignalData.ema9 SignalData.ema21].
  intros H.
  destruct rsi as [|x1]; [solve [run_strength]|].
  destruct macd as [|x2]; [solve [run_strength]|].
  destruct sig as [|x3]; [solve [run_strength]|].
  destruct e9 as [|x4]; [solve [run_strength]|].
  destruct e21 as [|x5]; [solve [run_strength]|].
  exfalso. destruct H as [H|[H|[H|[H|H]]]]; discriminate H.
Qed.

Lemma strength_neutral_on_missing_value_witness :
  get_signal_strength
    {| SignalData.signal := HOLD; SignalData.price := int 100;
       SignalData.rsi := int 50; SignalData.macd := int 1;
       SignalData.macd_signal := PNone; SignalData.ema9 := int 100;
       SignalData.ema21 := int 100; SignalData.volume := int 0;
       SignalData.volume_avg := int 0 |}
  = PNum (int 50).
Proof.
  apply strength_neutral_on_missing_value. right. right. left. reflexivity.
Defined.

(** ** Messages *)

Lemma contains_AGUARDAR (s : Signal) :
  contains "AGUARDAR" (signal_text s)
  = match s with HOLD => true | _ => false end.
Proof. destruct s; vm_compute; reflexivity. Qed.

Lemma contains_COMPRA (s : Signal) :
  contains "COMPRA" (signal_text s)
  = match s with BUY => true | _ => false end.
Proof. destruct s; vm_compute; reflexivity. Qed.

Lemma contains_VENDA (s : Signal) :
  contains "VENDA" (signal_text s)
  = match s with SELL => true | _ => false end.
Proof. destruct s; vm_compute; reflexivity. Qed.

Lemma signal_text_eqb (a b : Signal) :
  String.eqb (signal_text a) (signal_text b) = true <-> a = b.
Proof.
  destruct a, b; vm_compute; split; congruence.
Qed.

Lemma ltb_antisym (x y : f64) : F.ltb x y = true -> F.ltb y x = false.
Proof.
  intros H. destruct (F.ltb y x) eqn:E; [|reflexivity].
  apply ltb_lt in H, E. destruct (lt_asym _ _ H E).
Qed.

Lemma has_null_false (latest : DF.Row) (key : string) :
  has_null latest = false -> In key required_keys ->
  DF.get latest key PNone = PNum (num_of (DF.get latest key PNone)).
Proof.
  unfold has_null. intros H Hk. apply isna_false_num.
  destruct (Py.isna (DF.get latest key PNone)) eqn:E; [|reflexivity].
  rewrite <- H. symmetry. apply existsb_exists. eauto.
Qed.

(** The class of a record and the order of its two averages. *)
Lemma classify_trend (rsi macd sig ema_s ema_l : pyval) :
  match classify rsi macd sig ema_s ema_l with
  | BUY => F.ltb (num_of ema_l) (num_of ema_s) = true
  | SELL => F.ltb (num_of ema_l) (num_of ema_s) = false
  | HOLD => True
  end.
Proof.
  unfold classify.
  destruct (buy_b _ _ _ _ _) eqn:Hb.
  - unfold buy_b in Hb. rewrite !andb_true_iff in Hb. tauto.
  - destruct (sell_b _ _ _ _ _) eqn:Hs; [|exact I].
    unfold sell_b in Hs. rewrite !andb_true_iff in Hs.
    apply ltb_antisym. tauto.
Qed.

Section MessageProperties.

Variable format_fixed : nat -> f64 -> string.
Variable now : string.

(** The fields of a record that [generate_signal] returned are numbers,
    and its class is the one of these numbers. *)
Lemma generated_record_numeric (df : option DataFrame) (d : SignalData.t) :
  generate_signal df = Some d ->
  exists (price rsi macd ema9 ema21 : f64) (sig : pyval),
    SignalData.price d = PNum price /\ SignalData.rsi d = PNum rsi /\
    SignalData.macd d = PNum macd /\ SignalData.ema9 d = PNum ema9 /\
    SignalData.ema21 d = PNum ema21 /\
    SignalData.signal d = classify rsi macd sig ema9 ema21.
Proof.
  destruct df as [df|]; [|discriminate].
  intros (_ & _ & Hn & ->)%generate_signal_Some.
  set (latest := latest_row df) in *.
  assert (forall key, In key required_keys ->
            DF.get latest key PNone = PNum (num_of (DF.get latest key PNone)))
    as Hk by (intros; now apply has_null_false).
  exists (num_of (DF.get latest "close" PNone)),
    (num_of (DF.get latest "RSI" PNone)),
    (num_of (DF.get latest "MACD_12_26_9" PNone)),
    (num_of (DF.get latest "EMA9" PNone)),
    (num_of (DF.get latest "EMA21" PNone)),
    (DF.get latest "MACDs_12_26_9" PNone).
  unfold record_of.
  cbn [SignalData.signal SignalData.price SignalData.rsi SignalData.macd
       SignalData.ema9 SignalData.ema21].
  repeat split; try (apply Hk; cbn; tauto).
Qed.

(** Numbers are always formatted. *)
Lemma format_numeric (d : SignalData.t) (price rsi macd ema9 ema21 : f64) :
  SignalData.price d = PNum price -> SignalData.rsi d = PNum rsi ->
  SignalData.macd d = PNum macd -> SignalData.ema9 d = PNum ema9 ->
  SignalData.ema21 d = PNum ema21 ->
  format_signal_message format_fixed now d
  = Ok (if negb (contains "AGUARDAR" (signal_text (SignalData.signal d)))
        then message_text (signal_text (SignalData.signal d))
               (format_fixed 2 price) (format_fixed 1 rsi)
               (format_fixed 4 macd)
               (if F.ltb ema21 ema9 then "Alta" else "Baixa") now
        else signal_text (SignalData.signal d)).
Proof.
  intros Hp Hr Hm H9 H21. unfold format_signal_message.
  rewrite Hp, Hr, Hm, H9, H21.
  destruct (negb _); reflexivity.
Qed.

(** X10.  A record that [generate_signal] returned is always formatted,
    [format_signal_message] raises on none of them; a hold gives the bare
    label, and the trend line of an actionable message repeats the class:
    it reads Alta in every buy message and Baixa in every sell message. *)
Theorem message_of_generated_signal (df : option DataFrame)
    (d : SignalData.t) :
  generate_signal df = Some d ->
  exists price rsi macd : f64,
    SignalData.price d = PNum price /\ SignalData.rsi d = PNum rsi /\
    SignalData.macd d = PNum macd /\
    format_signal_message format_fixed now d
    = Ok (match SignalData.signal d with
          | BUY =>
              message_text (signal_text BUY) (format_fixed 2 price)
                (format_fixed 1 rsi) (format_fixed 4 macd) "Alta" now
          | SELL =>
              message_text (signal_text SELL) (format_fixed 2 price)
                (format_fixed 1 rsi) (format_fixed 4 macd) "Baixa" now
          | HOLD => signal_text HOLD
          end).
Proof.
  intros Hg.
  destruct (generated_record_numeric df d Hg)
    as (price & rsi & macd & ema9 & ema21 & sig
        & Hp & Hr & Hm & H9 & H21 & Hs).
  exists price, rsi, macd.
  split; [exact Hp|]. split; [exact Hr|]. split; [exact Hm|].
  rewrite (format_numeric d price rsi macd ema9 ema21 Hp Hr Hm H9 H21).
  rewrite contains_AGUARDAR, Hs.
  pose proof (classify_trend rsi macd sig ema9 ema21) as Ht.
  cbn [num_of] in Ht.
  destruct (classify rsi macd sig ema9 ema21); cbn [negb];
    [rewrite Ht; reflexivity|rewrite Ht; reflexivity|reflexivity].
Qed.

(** ** The history of signals *)

Lemma last_n_length {A : Type} (n : nat) (l : list A) :
  length (last_n n l) = Nat.min n (length l).
Proof. unfold last_n. rewrite length_drop. lia. Qed.

Lemma last_drop {A : Type} (k : nat) (l : list A) :
  (k < length l)%nat -> last (drop k l) = last l.
Proof.
  intros H. rewrite !last_lookup, lookup_drop, length_drop.
  f_equal. lia.
Qed.

Lemma alternating_drop (k : nat) (history : list HistoryEntry) :
  alternating history -> alternating (drop k history).
Proof.
  intros H i a b Ha Hb. rewrite lookup_drop in Ha, Hb.
  replace (k + S i)%nat with (S (k + i)) in Hb by lia.
  exact (H _ _ _ Ha Hb).
Qed.

Lemma alternating_snoc (history : list HistoryEntry) (e : HistoryEntry) :
  alternating history ->
  (forall previous, last history = Some previous ->
     SignalData.signal (entry_data previous)
     <> SignalData.signal (entry_data e)) ->
  alternating (history ++ [e]).
Proof.
  intros H Hl i a b Ha Hb.
  assert (S i < length (history ++ [e]))%nat as Hlt
    by (apply lookup_lt_is_Some; eauto).
  rewrite length_app in Hlt. cbn in Hlt.
  destruct (decide (S i < length history)%nat) as [Hi|Hi].
  - rewrite lookup_app_l in Ha, Hb by lia. exact (H _ _ _ Ha Hb).
  - assert (S i = length history) as Ei by lia.
    rewrite lookup_app_l in Ha by lia.
    rewrite lookup_app_r, Ei, Nat.sub_diag in Hb by lia.
    injection Hb as <-. apply Hl.
    rewrite last_lookup, <- Ei. exact Ha.
Qed.

Lemma changed_test (history : list HistoryEntry) (data : SignalData.t) :
  match last history with
  | None => true
  | Some previous =>
      negb (String.eqb (entry_signal previous)
              (signal_text (SignalData.signal data)))
  end = true <-> changed history data.
Proof.
  unfold changed, entry_signal.
  destruct (last history) as [previous|].
  - rewrite negb_true_iff. split.
    + intros E p [= <-] Hs. rewrite Hs, String.eqb_refl in E.
      discriminate E.
    + intros H. destruct (String.eqb _ _) eqn:E; [|reflexivity].
      apply signal_text_eqb in E. destruct (H _ eq_refl E).
  - split; [intros _ p [=]|reflexivity].
Qed.

Lemma changed_dec (history : list HistoryEntry) (data : SignalData.t) :
  changed history data \/ ~ changed history data.
Proof.
  rewrite <- changed_test.
  destruct (match last history with None => true | Some _ => _ end);
    [left; reflexivity|right; discriminate].
Qed.

Lemma main_record_signal_changed (telegram_enabled : bool)
    (timestamp : string) (history : list HistoryEntry) (data : SignalData.t) :
  changed history data ->
  let entry := {| entry_data := data; entry_timestamp := timestamp |} in
  main_record_signal format_fixed now telegram_enabled timestamp history
    (Some data)
  = (last_n 50 (history ++ [entry]),
     if telegram_enabled &&
        match SignalData.signal data with HOLD => false | _ => true end
     then match format_signal_message format_fixed now data with
          | Ok message => Some message
          | Raise _ => None
          end
     else None).
Proof.
  intros Hc entry. apply changed_test in Hc.
  unfold main_record_signal. fold entry.
  replace (entry_signal entry) with (signal_text (SignalData.signal data))
    by reflexivity.
  rewrite Hc, contains_COMPRA, contains_VENDA.
  f_equal.
  - case_decide; [reflexivity|]. unfold last_n.
    match goal with
    | |- _ = drop ?k _ => replace k with 0%nat by lia
    end.
    reflexivity.
  - destruct (SignalData.signal data); reflexivity.
Qed.

Lemma main_record_signal_unchanged (telegram_enabled : bool)
    (timestamp : string) (history : list HistoryEntry) (data : SignalData.t) :
  ~ changed history data ->
  main_record_signal format_fixed now telegram_enabled timestamp history
    (Some data)
  = (history, None).
Proof.
  intros Hc. rewrite <- changed_test in Hc. apply not_true_is_false in Hc.
  unfold main_record_signal.
  replace (entry_signal {| entry_data := data; entry_timestamp := timestamp |})
    with (signal_text (SignalData.signal data)) by reflexivity.
  rewrite Hc. reflexivity.
Qed.

Lemma main_record_signal_invariant (telegram_enabled : bool)
    (timestamp : string) (history : list HistoryEntry)
    (signal_data : option SignalData.t) :
  (length history <= 50)%nat /\ alternating history ->
  let history' :=
    fst (main_record_signal format_fixed now telegram_enabled timestamp
           history signal_data) in
  (length history' <= 50)%nat /\ alternating history'.
Proof.
  intros [Hl Ha]. destruct signal_data as [data|]; [|split; assumption].
  destruct (changed_dec history data) as [Hc|Hc]; cbv zeta.
  - rewrite main_record_signal_changed by exact Hc. cbn [fst]. split.
    + rewrite last_n_length. lia.
    + apply alternating_drop, alternating_snoc; assumption.
  - rewrite main_record_signal_unchanged by exact Hc. split; assumption.
Qed.

(** X11.  Whatever the sequence of evaluations, the history that [main]
    keeps never holds more than 50 entries, and no two neighbours in it
    have the same class: an evaluation whose class repeats the previous
    one is not recorded. *)
Theorem history_bounded_and_alternating (telegram_enabled : bool)
    (evaluations : list (string * option SignalData.t)) :
  (length (histories format_fixed now telegram_enabled evaluations) <= 50)%nat
  /\ alternating (histories format_fixed now telegram_enabled evaluations).
Proof.
  unfold histories.
  assert ((length (@nil HistoryEntry) <= 50)%nat /\ alternating [])
    as H0 by (split; [cbn; lia|intros i a b [=]]).
  revert H0. generalize (@nil HistoryEntry).
  induction evaluations as [|[timestamp signal_data] evaluations IH];
    intros history H; [exact H|].
  cbn [foldl fst snd]. apply IH.
  exact (main_record_signal_invariant _ _ _ _ H).
Qed.

(** X12.  After an evaluation that gave a record, the last entry of the
    history has the class of that record, whether the record was appended
    or not; when the class repeats the one before, the history, and with
    it the price and the time of its last entry, stay as they were. *)
Theorem history_tracks_latest_class (telegram_enabled : bool)
    (timestamp : string) (history : list HistoryEntry) (data : SignalData.t) :
  let history' :=
    fst (main_record_signal format_fixed now telegram_enabled timestamp
           history (Some data)) in
  (exists e, last history' = Some e /\
     SignalData.signal (entry_data e) = SignalData.signal data) /\
  (forall previous, last history = Some previous ->
     SignalData.signal (entry_data previous) = SignalData.signal data ->
     history' = history).
Proof.
  cbv zeta. destruct (changed_dec history data) as [Hc|Hc].
  - rewrite main_record_signal_changed by exact Hc. cbn [fst]. split.
    + exists {| entry_data := data; entry_timestamp := timestamp |}.
      split; [|reflexivity]. unfold last_n.
      rewrite last_drop by (rewrite length_app; cbn; lia).
      apply last_snoc.
    + intros previous Hp Hs. destruct (Hc previous Hp Hs).
  - rewrite main_record_signal_unchanged by exact Hc. cbn [fst]. split.
    + rewrite <- changed_test in Hc.
      destruct (last history) as [previous|]; [|destruct Hc; reflexivity].
      exists previous. split; [reflexivity|].
      apply signal_text_eqb. apply not_true_is_false in Hc.
      apply negb_false_iff in Hc. exact Hc.
    + reflexivity.
Qed.

(** X13.  A message is handed to the notifier exactly when the notifier is
    enabled, the evaluation gave a record whose class is a buy or a sell
    and differs from the class of the last entry of the history, and the
    record can be formatted; the message is the formatted record.  A hold
    and a repeated class are never notified. *)
Theorem notification_sent_iff (telegram_enabled : bool) (timestamp : string)
    (history : list HistoryEntry) (signal_data : option SignalData.t)
    (message : string) :
  snd (main_record_signal format_fixed now telegram_enabled timestamp history
         signal_data) = Some message
  <-> telegram_enabled = true /\
      exists data, signal_data = Some data /\
        SignalData.signal data <> HOLD /\ changed history data /\
        format_signal_message format_fixed now data = Ok message.
Proof.
  destruct signal_data as [data|].
  2:{ split; [discriminate|]. intros (_ & d & [=] & _). }
  destruct (changed_dec history data) as [Hc|Hc].
  - rewrite main_record_signal_changed by exact Hc. cbn [snd]. split.
    + destruct telegram_enabled; [|discriminate]. cbn [andb].
      destruct (SignalData.signal data) eqn:Es; try discriminate;
        destruct (format_signal_message _ _ data) as [m|] eqn:Ef;
        try discriminate; intros [= <-];
        (split; [reflexivity|]); exists data; rewrite Es;
        repeat split; try assumption; discriminate.
    + intros (-> & d & [= <-] & Hs & _ & ->). cbn [andb].
      destruct (SignalData.signal data); [reflexivity|reflexivity|].
      destruct Hs. reflexivity.
  - rewrite main_record_signal_unchanged by exact Hc. cbn [snd]. split.
    + discriminate.
    + intros (_ & d & [= <-] & _ & Hd & _). destruct (Hc Hd).
Qed.

(** X14.  For the record of [generate_signal], which is what [main]
    passes, formatting cannot fail: the notifier gets a message exactly
    when it is enabled and the class is a buy or a sell that differs from
    the class of the last entry of the history. *)
Theorem generated_signal_notified (telegram_enabled : bool)
    (timestamp : string) (history : list HistoryEntry)
    (df : option DataFrame) :
  (exists message,
     snd (main_record_signal format_fixed now telegram_enabled timestamp
            history (generate_signal df)) = Some message)
  <-> telegram_enabled = true /\
      exists data, generate_signal df = Some data /\
        SignalData.signal data <> HOLD /\ changed history data.
Proof.
  destruct (generate_signal df) as [data|] eqn:Eg.
  2:{ split; [intros [m [=]]|intros (_ & d & [=] & _)]. }
  destruct (generated_record_numeric df data Eg)
    as (price & rsi & macd & ema9 & ema21 & sig
        & Hp & Hr & Hm & H9 & H21 & _).
  pose proof (format_numeric data price rsi macd ema9 ema21 Hp Hr Hm H9 H21)
    as Ef.
  destruct (changed_dec history data) as [Hc|Hc].
  - rewrite main_record_signal_changed by exact Hc. cbn [snd]. rewrite Ef.
    split.
    + intros [msg H]. destruct telegram_enabled; [|discriminate].
      split; [reflexivity|]. exists data. repeat split; [|exact Hc].
      intros Es. rewrite Es in H. discriminate H.
    + intros (-> & d & [= <-] & Hs & _). cbn [andb].
      destruct (SignalData.signal data); [eauto|eauto|].
      destruct Hs. reflexivity.
  - rewrite main_record_signal_unchanged by exact Hc. cbn [snd]. split.
    + intros [msg [=]].
    + intros (_ & d & [= <-] & _ & Hd). destruct (Hc Hd).
Qed.

End MessageProperties.

Lemma message_of_generated_signal_witness :
  let d := record_of (latest_row (snapshot_frame 1000 (int 125) (int 2))) in
  generate_signal (Some (snapshot_frame 1000 (int 125) (int 2))) = Some d /\
  exists price rsi macd : f64,
    SignalData.price d = PNum price /\ SignalData.rsi d = PNum rsi /\
    SignalData.macd d = PNum macd /\
    format_signal_message (fun _ _ => "0") "12:00:00" d
    = Ok (match SignalData.signal d with
          | BUY =>
              message_text (signal_text BUY) "0" "0" "0" "Alta" "12:00:00"
          | SELL =>
              message_text (signal_text SELL) "0" "0" "0" "Baixa" "12:00:00"
          | HOLD => signal_text HOLD
          end).
Proof.
  cbv zeta.
  assert (generate_signal (Some (snapshot_frame 1000 (int 125) (int 2)))
          = Some (record_of
                    (latest_row (snapshot_frame 1000 (int 125) (int 2)))))
    as H by (rewrite generate_signal_eq; reflexivity).
  split; [exact H|].
  exact (message_of_generated_signal (fun _ _ => "0") "12:00:00" _ _ H).
Defined.

(** ** The data source *)

Lemma requests_app (l1 l2 : list Event) :
  requests (l1 ++ l2) = (requests l1 + requests l2)%nat.
Proof.
  unfold requests. induction l1 as [|[|x] l1 IH]; cbn; [reflexivity| |exact IH].
  f_equal. exact IH.
Qed.

Lemma waited_app (l1 l2 : list Event) :
  waited (l1 ++ l2) = (waited l1 + waited l2)%Z.
Proof.
  unfold waited. induction l1 as [|[|x] l1 IH]; cbn [foldr app];
    [reflexivity|exact IH|].
  rewrite IH. lia.
Qed.

Lemma rate_limited_not_usable (r : Response) :
  rate_limited r = true -> usable r = false.
Proof.
  destruct r as [|code [prices|]]; cbn; try reflexivity.
  intros H. apply Z.eqb_eq in H. subst code. reflexivity.
Qed.

Section FetchProperties.

Variable responses : nat -> Response.
Variables limite tentativas atraso : Z.

Local Abbreviation for_tentativa :=
  (DataFetcher.for_tentativa responses limite tentativas atraso).
Local Abbreviation pause := (pause responses tentativas atraso).

Lemma for_tentativa_usable (tentativa : nat) (range : list nat)
    (log : list Event) (prices : list (Z * f64)) :
  responses tentativa = Http 200 (Some prices) ->
  for_tentativa (tentativa :: range) log
  = (Ok (Some (frame_of_prices (slice_last limite prices))), log ++ [Request]).
Proof. intros H. cbn [DataFetcher.for_tentativa]. rewrite H. reflexivity. Qed.

Lemma usable_inv (r : Response) :
  usable r = true -> exists prices, r = Http 200 (Some prices).
Proof.
  destruct r as [|code [prices|]]; cbn; try discriminate.
  intros H. apply Z.eqb_eq in H. subst code. eauto.
Qed.

Lemma for_tentativa_failed (tentativa : nat) (range : list nat)
    (log : list Event) :
  (0 <= atraso)%Z -> usable (responses tentativa) = false ->
  for_tentativa (tentativa :: range) log
  = for_tentativa range (log ++ Request :: pause tentativa).
Proof.
  intros Ha Hu. cbn [DataFetcher.for_tentativa]. unfold pause, sleep.
  assert ((atraso <? 0)%Z = false) as -> by lia.
  assert ((atraso * 2 <? 0)%Z = false) as -> by lia.
  assert (forall l, (log ++ [Request]) ++ l = log ++ Request :: l) as Hl
    by (intros; rewrite <- app_assoc; reflexivity).
  destruct (responses tentativa) as [|code prices]; cbn [rate_limited].
  - destruct (Z.of_nat tentativa <? tentativas - 1)%Z;
      rewrite ?Hl; reflexivity.
  - destruct (code =? 200)%Z eqn:E200.
    + destruct prices as [prices|]; [cbn in Hu; congruence|].
      assert ((code =? 429)%Z = false) as -> by lia.
      destruct (Z.of_nat tentativa <? tentativas - 1)%Z;
        rewrite ?Hl; reflexivity.
    + destruct (code =? 429)%Z; [rewrite Hl; reflexivity|].
      destruct (Z.of_nat tentativa <? tentativas - 1)%Z;
        rewrite ?Hl; reflexivity.
Qed.

(** The run of the loop over the passes [start], ..., [start + len - 1]:
    [failed] passes fail, each logging its request and its pause, and the
    next one, if there is one, succeeds. *)
Lemma for_tentativa_run (len start : nat) (log : list Event) :
  (0 <= atraso)%Z ->
  exists failed : nat,
    (failed <= len)%nat /\
    (forall j, (start <= j < start + failed)%nat ->
       usable (responses j) = false) /\
    ((failed = len /\
      for_tentativa (seq start len) log
      = (Ok None,
         log ++ flat_map (fun j => Request :: pause j) (seq start failed)))
     \/
     (exists prices,
        (failed < len)%nat /\
        responses (start + failed)%nat = Http 200 (Some prices) /\
        for_tentativa (seq start len) log
        = (Ok (Some (frame_of_prices (slice_last limite prices))),
           log ++ flat_map (fun j => Request :: pause j) (seq start failed)
               ++ [Request]))).
Proof.
  intros Ha. revert start log.
  induction len as [|len IH]; intros start log.
  - exists 0%nat. split; [lia|]. split; [intros; lia|]. left.
    split; [reflexivity|]. cbn. rewrite app_nil_r. reflexivity.
  - cbn [seq]. destruct (usable (responses start)) eqn:Hu.
    + destruct (usable_inv _ Hu) as [prices Hp].
      exists 0%nat. split; [lia|]. split; [intros; lia|]. right.
      exists prices. split; [lia|]. rewrite Nat.add_0_r.
      split; [exact Hp|]. rewrite (for_tentativa_usable _ _ _ _ Hp).
      reflexivity.
    + rewrite (for_tentativa_failed _ _ _ Ha Hu).
      destruct (IH (S start) (log ++ Request :: pause start))
        as (failed & Hle & Hf & Hr).
      exists (S failed). split; [lia|]. split.
      { intros j Hj. destruct (decide (j = start)) as [->|Hne];
          [exact Hu|apply Hf; lia]. }
      cbn [seq flat_map].
      destruct Hr as [[-> Hr]|(prices & Hlt & Hp & Hr)].
      * left. split; [reflexivity|]. rewrite Hr, <- app_assoc. reflexivity.
      * right. exists prices. split; [lia|].
        replace (start + S failed)%nat with (S start + failed)%nat by lia.
        split; [exact Hp|]. rewrite Hr, <- !app_assoc. reflexivity.
Qed.

Lemma requests_passes (l : list nat) :
  requests (flat_map (fun j => Request :: pause j) l) = length l.
Proof.
  induction l as [|j l IH]; [reflexivity|].
  cbn [flat_map length]. rewrite (requests_app (_ :: _)), IH.
  unfold pause.
  destruct (rate_limited _); [reflexivity|].
  destruct (_ <? _)%Z; reflexivity.
Qed.

Lemma waited_pause_bounds (j : nat) :
  (0 <= atraso)%Z -> (0 <= waited (pause j) <= 2 * atraso)%Z.
Proof.
  intros Ha. unfold pause.
  destruct (rate_limited _); [cbn; lia|].
  destruct (_ <? _)%Z; cbn; lia.
Qed.

Lemma waited_passes_bounds (l : list nat) :
  (0 <= atraso)%Z ->
  (0 <= waited (flat_map (fun j => Request :: pause j) l)
   <= 2 * atraso * Z.of_nat (length l))%Z.
Proof.
  intros Ha. induction l as [|j l IH]; [cbn; lia|].
  cbn [flat_map length]. rewrite (waited_app (_ :: _)).
  change (waited (Request :: pause j)) with (waited (pause j)).
  pose proof (waited_pause_bounds j Ha). nia.
Qed.

End FetchProperties.

Lemma waited_passes_plain (responses : nat -> Response)
    (tentativas atraso : Z) (len : nat) :
  (len <= Z.to_nat tentativas)%nat ->
  (forall j, (j < len)%nat -> rate_limited (responses j) = false) ->
  waited (flat_map (fun j => Request :: pause responses tentativas atraso j)
            (seq 0 len))
  = (atraso * Z.of_nat (Nat.min len (Z.to_nat tentativas - 1)))%Z.
Proof.
  induction len as [|len IH]; intros Hle Hr; [cbn; lia|].
  rewrite seq_S, flat_map_app, waited_app, IH by (intros; try apply Hr; lia).
  cbn [flat_map app Nat.add]. unfold pause. rewrite Hr by lia.
  destruct (Z.of_nat len <? tentativas - 1)%Z eqn:E;
    cbn [waited foldr app].
  - rewrite !Nat.min_l by lia. lia.
  - rewrite !Nat.min_r by lia. lia.
Qed.

Lemma waited_passes_limited (responses : nat -> Response)
    (tentativas atraso : Z) (len : nat) :
  (forall j, (j < len)%nat -> rate_limited (responses j) = true) ->
  waited (flat_map (fun j => Request :: pause responses tentativas atraso j)
            (seq 0 len))
  = (2 * atraso * Z.of_nat len)%Z.
Proof.
  induction len as [|len IH]; intros Hr; [cbn; lia|].
  rewrite seq_S, flat_map_app, waited_app, IH by (intros; apply Hr; lia).
  cbn [flat_map app Nat.add]. unfold pause. rewrite Hr by lia.
  cbn [waited foldr app]. lia.
Qed.

(** X15.  With a delay that is not negative, [obter_dados_btc] never
    raises.  It returns the frame of the first response among the first
    [tentativas] that has status 200 and a readable list of prices, cut to
    [prices[-limite:]], and stops asking there; when none of them is
    usable, or [tentativas] is 0 or negative, it returns [None] after
    exactly [tentativas] requests. *)
Theorem obter_dados_btc_outcome (self : DataFetcher.t)
    (responses : nat -> Response) (limite : Z) (tentativas atraso : option Z) :
  (0 <= default (DataFetcher.retry_delay self) atraso)%Z ->
  let run :=
    DataFetcher.obter_dados_btc self responses limite tentativas atraso in
  let passes :=
    Z.to_nat (default (DataFetcher.max_retries self) tentativas) in
  (exists (k : nat) (prices : list (Z * f64)),
     (k < passes)%nat /\
     responses k = Http 200 (Some prices) /\
     (forall j, (j < k)%nat -> usable (responses j) = false) /\
     fst run = Ok (Some (frame_of_prices (slice_last limite prices))) /\
     requests (snd run) = S k)
  \/
  ((forall j, (j < passes)%nat -> usable (responses j) = false) /\
   fst run = Ok None /\
   requests (snd run) = passes).
Proof.
  intros Ha run passes. subst run. unfold DataFetcher.obter_dados_btc.
  fold passes.
  destruct (for_tentativa_run responses limite
              (default (DataFetcher.max_retries self) tentativas)
              (default (DataFetcher.retry_delay self) atraso)
              passes 0 [] Ha)
    as (failed & Hle & Hf & [[-> ->]|(prices & Hlt & Hp & ->)]).
  - right. split; [intros j Hj; apply Hf; lia|]. split; [reflexivity|].
    cbn [snd app]. rewrite requests_passes, length_seq. reflexivity.
  - left. exists failed, prices. split; [exact Hlt|]. split; [exact Hp|].
    split; [intros j Hj; apply Hf; lia|]. split; [reflexivity|].
    cbn [snd app]. rewrite requests_app, requests_passes, length_seq.
    cbn. lia.
Qed.

Lemma obter_dados_btc_outcome_witness :
  let run :=
    DataFetcher.obter_dados_btc DataFetcher.__init__ flaky_responses 100
      None None in
  (exists (k : nat) (prices : list (Z * f64)),
     (k < 5)%nat /\
     flaky_responses k = Http 200 (Some prices) /\
     (forall j, (j < k)%nat -> usable (flaky_responses j) = false) /\
     fst run = Ok (Some (frame_of_prices (slice_last 100 prices))) /\
     requests (snd run) = S k)
  \/
  ((forall j, (j < 5)%nat -> usable (flaky_responses j) = false) /\
   fst run = Ok None /\
   requests (snd run) = 5%nat).
Proof.
  apply (obter_dados_btc_outcome DataFetcher.__init__ flaky_responses 100
           None None).
  cbn. lia.
Defined.

(** X16.  With a delay that is not negative, the time [obter_dados_btc]
    spends asleep is at most twice the delay for each request made.  When
    no response is usable and none reports the rate limit it sleeps the
    delay between the passes only, [tentativas - 1] times; when every
    response reports the rate limit it sleeps twice the delay after each
    pass, the last one included. *)
Theorem obter_dados_btc_waits (self : DataFetcher.t)
    (responses : nat -> Response) (limite : Z) (tentativas atraso : option Z) :
  let delay := default (DataFetcher.retry_delay self) atraso in
  (0 <= delay)%Z ->
  let run :=
    DataFetcher.obter_dados_btc self responses limite tentativas atraso in
  let passes :=
    Z.to_nat (default (DataFetcher.max_retries self) tentativas) in
  (0 <= waited (snd run) <= 2 * delay * Z.of_nat (requests (snd run)))%Z /\
  ((forall j, (j < passes)%nat ->
      usable (responses j) = false /\ rate_limited (responses j) = false) ->
   waited (snd run) = (delay * Z.of_nat (passes - 1))%Z) /\
  ((forall j, (j < passes)%nat -> rate_limited (responses j) = true) ->
   waited (snd run) = (2 * delay * Z.of_nat passes)%Z).
Proof.
  intros delay Ha run passes. subst run. unfold DataFetcher.obter_dados_btc.
  fold passes delay.
  destruct (for_tentativa_run responses limite
              (default (DataFetcher.max_retries self) tentativas) delay
              passes 0 [] Ha)
    as (failed & Hle & Hf & [[-> ->]|(prices & Hlt & Hp & ->)]);
    cbn [snd app].
  - split; [|split].
    + rewrite requests_passes.
      apply (waited_passes_bounds responses _ delay _ Ha).
    + intros H. rewrite waited_passes_plain by (try apply H; lia).
      f_equal. lia.
    + intros H. apply waited_passes_limited. exact H.
  - cbn [Nat.add] in Hp.
    assert (usable (responses failed) = true) as Hu
      by (rewrite Hp; reflexivity).
    split; [|split].
    + rewrite requests_app, requests_passes, waited_app.
      pose proof (waited_passes_bounds responses
                    (default (DataFetcher.max_retries self) tentativas)
                    delay (seq 0 failed) Ha) as Hb.
      cbn. lia.
    + intros H. destruct (H failed Hlt) as [Hn _]. congruence.
    + intros H. pose proof (rate_limited_not_usable _ (H failed Hlt)).
      congruence.
Qed.

Lemma obter_dados_btc_waits_witness :
  let run :=
    DataFetcher.obter_dados_btc DataFetcher.__init__ no_responses 100
      (Some 3%Z) (Some 7%Z) in
  (0 <= waited (snd run) <= 2 * 7 * Z.of_nat (requests (snd run)))%Z /\
  ((forall j, (j < 3)%nat ->
      usable (no_responses j) = false /\ rate_limited (no_responses j) = false)
   -> waited (snd run) = (7 * Z.of_nat (3 - 1))%Z) /\
  ((forall j, (j < 3)%nat -> rate_limited (no_responses j) = true) ->
   waited (snd run) = (2 * 7 * Z.of_nat 3)%Z).
Proof.
  apply (obter_dados_btc_waits DataFetcher.__init__ no_responses 100
           (Some 3%Z) (Some 7%Z)).
  cbn. lia.
Defined.

(** X17.  A negative delay is not caught: when the first response is not
    usable and there are at least two passes, [obter_dados_btc] raises the
    [ValueError] of [time.sleep] after its first request instead of
    returning [None]. *)
Theorem obter_dados_btc_negative_delay (self : DataFetcher.t)
    (responses : nat -> Response) (limite : Z) (tentativas atraso : option Z) :
  (default (DataFetcher.retry_delay self) atraso < 0)%Z ->
  (2 <= default (DataFetcher.max_retries self) tentativas)%Z ->
  usable (responses 0%nat) = false ->
  DataFetcher.obter_dados_btc self responses limite tentativas atraso
  = (Raise ValueError, [Request]%list).
Proof.
  intros Ha Ht Hu. unfold DataFetcher.obter_dados_btc.
  destruct (Z.to_nat (default (DataFetcher.max_retries self) tentativas))
    as [|n] eqn:En; [lia|].
  cbn [seq DataFetcher.for_tentativa app]. unfold sleep.
  assert ((default (DataFetcher.retry_delay self) atraso <? 0)%Z = true)
    as -> by lia.
  assert ((default (DataFetcher.retry_delay self) atraso * 2 <? 0)%Z = true)
    as -> by lia.
  assert ((Z.of_nat 0
           <? default (DataFetcher.max_retries self) tentativas - 1)%Z = true)
    as -> by (apply Z.ltb_lt; cbn [Z.of_nat]; lia).
  destruct (responses 0%nat) as [|code [prices|]]; [reflexivity| |].
  - destruct (code =? 200)%Z eqn:E; [cbn in Hu; congruence|].
    destruct (code =? 429)%Z; reflexivity.
  - destruct (code =? 200)%Z; [reflexivity|].
    destruct (code =? 429)%Z; reflexivity.
Qed.

Lemma obter_dados_btc_negative_delay_witness :
  DataFetcher.obter_dados_btc DataFetcher.__init__ no_responses 100 None
    (Some (-1)%Z)
  = (Raise ValueError, [Request]%list).
Proof.
  apply (obter_dados_btc_negative_delay DataFetcher.__init__ no_responses 100
           None (Some (-1)%Z)).
  - cbn. lia.
  - cbn. lia.
  - reflexivity.
Defined.

(** ** The fetched frame *)

Lemma slice_last_suffix {A : Type} (limite : Z) (l : list A) :
  slice_last limite l `suffix_of` l.
Proof.
  unfold slice_last, last_n. destruct (0 <? limite)%Z; apply suffix_drop.
Qed.

Lemma slice_last_length {A : Type} (limite : Z) (l : list A) :
  length (slice_last limite l)
  = if (0 <? limite)%Z then Nat.min (Z.to_nat limite) (length l)
    else (length l - Z.to_nat (- limite))%nat.
Proof.
  unfold slice_last, last_n. destruct (0 <? limite)%Z;
    rewrite length_drop; lia.
Qed.

(** X18.  The frame of a response is well formed and holds the last rows
    of the response in their order: the last [limite] of them, or all when
    there are fewer, for a positive [limite]; all of them for [limite = 0];
    all but the first [-limite] for a negative one.  It is empty exactly
    when it has no row. *)
Theorem fetched_frame_rows (limite : Z) (prices : list (Z * f64)) :
  let df := frame_of_prices (slice_last limite prices) in
  DF.wf df /\
  (exists close : Series,
     columns df = {[ "close" := close ]} /\
     zip (index df) close `suffix_of` prices) /\
  DF.len df
  = (if (0 <? limite)%Z then Nat.min (Z.to_nat limite) (length prices)
     else (length prices - Z.to_nat (- limite))%nat) /\
  DF.empty df = bool_decide (DF.len df = 0%nat).
Proof.
  cbv zeta. unfold frame_of_prices, DF.wf, DF.len, DF.empty, DF.to_numeric.
  cbn [index columns].
  set (rows := slice_last limite prices).
  split; [|split; [|split]].
  - intros c s [_ <-]%lookup_singleton_Some. rewrite !length_fmap.
    reflexivity.
  - exists (rows.*2). split; [reflexivity|].
    rewrite zip_fst_snd. apply slice_last_suffix.
  - rewrite length_fmap. apply slice_last_length.
  - assert (bool_decide (({[ "close" := rows.*2 ]} : gmap string Series) = ∅)
            = false) as ->.
    { apply bool_decide_eq_false_2. apply insert_non_empty. }
    rewrite orb_false_r. apply bool_decide_ext.
    rewrite length_zero_iff_nil. reflexivity.
Qed.

(** ** From the fetched frame to the record *)

Lemma calculate_indicators_reindex (self : TradingAnalyzer) (df : DataFrame)
    (idx : list Z) :
  calculate_indicators self {| index := idx; columns := columns df |}
  = {| index := idx; columns := columns (calculate_indicators self df) |}.
Proof.
  rewrite !calculate_indicators_eq. cbn [columns].
  destruct (columns df !! "close") as [close|]; [|reflexivity]. cbv zeta.
  destruct (_calculate_rsi close (rsi_period self)); [|reflexivity].
  destruct (_calculate_macd close (macd_fast self) (macd_slow self)
              (macd_signal self)) as [[[m s] h]|]; [|reflexivity].
  destruct (_calculate_ema close (ema_short self)); [|reflexivity].
  destruct (_calculate_ema close (ema_long self)); reflexivity.
Qed.

Lemma generate_signal_reindex (df : DataFrame) (idx : list Z) :
  length idx = length (index df) ->
  generate_signal (Some {| index := idx; columns := columns df |})
  = generate_signal (Some df).
Proof.
  intros Hl. rewrite !generate_signal_eq.
  unfold DF.empty, DF.len, latest_row. cbn [index columns]. rewrite Hl.
  assert (bool_decide (idx = []) = bool_decide (index df = [])) as ->;
    [|reflexivity].
  apply bool_decide_ext. rewrite <- !length_zero_iff_nil, Hl. reflexivity.
Qed.

(** X19.  The record that [main] computes from a fetched frame is the
    evaluation of its closes: the times of the rows play no part, and the
    test for an empty frame changes nothing, an empty series having no
    record anyway.  Without a frame there is no record. *)
Theorem main_signal_of_fetch (dados : list (Z * f64)) :
  main_signal __init__ (Some (frame_of_prices dados)) = evaluate (dados.*2) /\
  main_signal __init__ None = None.
Proof.
  split; [|reflexivity].
  unfold main_signal, evaluate.
  assert (frame_of_prices dados
          = {| index := dados.*1; columns := columns (frame_of (dados.*2)) |})
    as E by reflexivity.
  assert (generate_signal (Some (calculate_indicators __init__
                                   (frame_of_prices dados)))
          = generate_signal (Some (calculate_indicators __init__
                                     (frame_of (dados.*2))))) as Eg.
  { rewrite E, calculate_indicators_reindex.
    set (df := calculate_indicators __init__ (frame_of (dados.*2))).
    apply generate_signal_reindex.
    assert (index df = index (frame_of (dados.*2))) as ->.
    { unfold df. generalize (frame_of (dados.*2)). intros [i c].
      change {| index := i; columns := c |}
        with {| index := i;
                columns := columns {| index := i; columns := c |} |} at 1.
      rewrite calculate_indicators_reindex. reflexivity. }
    unfold frame_of. cbn [index].
    rewrite (length_map Z.of_nat), length_seq, !length_fmap. reflexivity. }
  destruct (DF.empty (frame_of_prices dados)) eqn:He; cbn [negb];
    [|exact Eg].
  rewrite <- Eg, generate_signal_eq.
  assert (DF.len (calculate_indicators __init__ (frame_of_prices dados))
          = 0%nat) as Hl.
  { unfold DF.empty, frame_of_prices in He. cbn [index columns] in He.
    rewrite E, calculate_indicators_reindex. unfold DF.len. cbn [index].
    rewrite orb_true_iff, !bool_decide_eq_true in He.
    destruct He as [->|He]; [reflexivity|].
    destruct (insert_non_empty _ _ _ He). }
  rewrite Hl. rewrite orb_true_r. reflexivity.
Qed.
